(** * FirstRoundAI-BE: the mock-interview evaluation handler

    A shallow embedding of [functions/src/index.ts]: the callable
    [evaluateMockInterview], the per-question loop
    [evaluateInterviewAnswers] and [sendEvaluationNotification].

    The handler is sequential [async] code, so it is embedded in a
    state-and-exception monad over a [World] that holds the document store
    and the trace of every request issued to an external collaborator
    (document store, chat-completion endpoint, messaging service, logger).
    What the collaborators answer is not decided by this repository: their
    answers are Section variables, so every theorem holds for any
    behaviour of the outside world. *)

From Stdlib Require Import QArith.
From stdpp Require Import gmap strings list fin_maps.

Set Default Proof Using "Type".
Set Warnings "-register-all".
Open Scope string_scope.

(** ** JavaScript values *)

(** A value as the runtime sees it. The model's reply is typed [any] in the
    source, so the [score] and [explanation] written to an evaluated
    question can be any of these. *)
Inductive jsval : Type :=
| JUndefined
| JNull
| JBool (b : bool)
| JNum (n : Q)
| JStr (s : string)
| JArr (xs : list jsval)
| JObj (props : list (string * jsval)).

(** A field declared [T | null] that may also be missing from a stored
    document. *)
Inductive nullable (A : Type) : Type :=
| Missing
| Null
| Val (a : A).
Arguments Missing {A}.
Arguments Null {A}.
Arguments Val {A} a.

(** What can be thrown. *)
Inductive FunctionsErrorCode : Type :=
| unauthenticated
| not_found
| internal.

Inductive JsError : Type :=
| Error (message : string)
| HttpsError (code : FunctionsErrorCode) (message : string)
| TypeError
| SyntaxError
| AxiosError (status : option Z)
| FirestoreError
| MessagingError.

Inductive Result (A : Type) : Type :=
| Ok (a : A)
| Throw (e : JsError).
Arguments Ok {A} a.
Arguments Throw {A} e.

Definition rbind {A B : Type} (r : Result A) (k : A -> Result B) : Result B :=
  match r with
  | Ok a => k a
  | Throw e => Throw e
  end.

(** ** The interfaces of [index.ts] *)

Record InterviewQuestion : Type := mkQuestion {
  difficulty : string;
  keywords : list string;
  question : string;
  topic : string;
  candidateAnswer : nullable string;
  score : jsval;
  explanation : jsval;
}.

Record InterviewDocModel : Type := mkDoc {
  title : string;
  questionsCount : Z;
  domain : nullable string;
  topics : string;
  doc_difficulty : string;
  jobDescription : string;
  resume : string;
  date : string;
  preciseTime : string;
  analysed : bool;
  evaludationId : nullable string;
  interviewQuestions : nullable (list InterviewQuestion);
  type : string;
}.

Record FunctionData : Type := mkData { docId : string }.

Record AuthData : Type := mkAuth { uid : string }.

Record CallableRequest : Type := mkRequest {
  auth : option AuthData;
  data : FunctionData;
}.

Record CallResult : Type := mkResult {
  success : bool;
  result_docId : string;
}.

(** A stored document: the interview fields plus the progress flag that the
    handler adds with its first update. *)
Record StoredDoc : Type := mkStored {
  fields : InterviewDocModel;
  evaluationInProgress : nullable bool;
}.

(** The argument of [update]: the fields an update names. *)
Record UpdateData : Type := mkUpdate {
  upd_interviewQuestions : option (list InterviewQuestion);
  upd_analysed : option bool;
  upd_evaluationInProgress : option bool;
}.

Record ChatMessage : Type := mkMessage {
  role : string;
  content : string;
}.

Record ChatRequest : Type := mkChat {
  messages : list ChatMessage;
  model : string;
  response_format : string;
}.

Record Notification : Type := mkNotification {
  n_type : string;
  n_title : string;
  n_message : string;
  n_docId : string;
  n_topic : string;
}.

(** How the exchange for one POST ends, as the HTTP client's transport
    hands it to the client: a network error, or the final response, that
    is the response to the last request of the exchange when the transport
    followed redirects. *)
Inductive HttpOutcome : Type :=
| NetworkError
| HttpResponse (status : Z) (body : jsval).

(** The response object axios resolves with. *)
Record AxiosResponse : Type := mkResponse {
  resp_status : Z;
  resp_data : jsval;
}.

(** ** The world *)

Inductive LogDetail : Type :=
| LogDocId (d : string)
| LogError (e : JsError).

Inductive Event : Type :=
| EvGet (collection doc : string)
| EvUpdate (collection doc : string) (u : UpdateData)
| EvPost (url : string) (req : ChatRequest)
| EvSend (n : Notification)
| EvLogInfo (text : string) (detail : LogDetail)
| EvLogError (text : string) (detail : LogDetail).

Record World : Type := mkWorld {
  store : gmap (string * string) StoredDoc;
  trace : list Event;
}.

(** [l.push(x)] *)
Definition push {A : Type} (l : list A) (x : A) : list A := (l ++ [x])%list.

Definition emit (e : Event) (w : World) : World :=
  {| store := store w; trace := push (trace w) e |}.

(** The world after further requests that leave the store alone. *)
Definition extend (w : World) (evs : list Event) : World :=
  {| store := store w; trace := (trace w ++ evs)%list |}.

Definition is_post (e : Event) : bool :=
  match e with EvPost _ _ => true | _ => false end.

Definition is_store_op (e : Event) : bool :=
  match e with EvGet _ _ | EvUpdate _ _ _ => true | _ => false end.

(** Number of model calls issued so far. *)
Definition posts (t : list Event) : nat := length (filter is_post t).

(** ** The monad of [async] code *)

Definition M (A : Type) : Type := World -> Result A * World.

Definition ret {A : Type} (a : A) : M A := fun w => (Ok a, w).

Definition throw {A : Type} (e : JsError) : M A := fun w => (Throw e, w).

Definition bind {A B : Type} (m : M A) (k : A -> M B) : M B :=
  fun w =>
    match m w with
    | (Ok a, w') => k a w'
    | (Throw e, w') => (Throw e, w')
    end.

(** [try { m } catch (error) { h error }] *)
Definition try_catch {A : Type} (m : M A) (h : JsError -> M A) : M A :=
  fun w =>
    match m w with
    | (Ok a, w') => (Ok a, w')
    | (Throw e, w') => h e w'
    end.

Definition lift {A : Type} (r : Result A) : M A := fun w => (r, w).

Declare Scope js_scope.
Delimit Scope js_scope with js.
Notation "x <- c ;; k" := (bind c (fun x => k))
  (at level 100, c at next level, right associativity) : js_scope.
Notation "c ;;; k" := (bind c (fun _ => k))
  (at level 100, right associativity) : js_scope.
Notation "x <~ r ;; k" := (rbind r (fun x => k))
  (at level 100, r at next level, right associativity) : js_scope.

(** ** Reading properties *)

Fixpoint own_property (k : string) (props : list (string * jsval)) : jsval :=
  match props with
  | [] => JUndefined
  | (k', v) :: rest => if String.eqb k k' then v else own_property k rest
  end.

(** [v.k] for a name [k] that no prototype defines ([choices], [message],
    [content], [score], [explanation]): reading from [undefined] or [null]
    throws, a primitive or an array has no such property. *)
Definition get_prop (k : string) (v : jsval) : Result jsval :=
  match v with
  | JUndefined | JNull => Throw TypeError
  | JObj props => Ok (own_property k props)
  | _ => Ok JUndefined
  end.

(** [v[0]] *)
Definition get_first (v : jsval) : Result jsval :=
  match v with
  | JUndefined | JNull => Throw TypeError
  | JArr xs => Ok (match xs with [] => JUndefined | x :: _ => x end)
  | JStr s => Ok (match s with
                  | EmptyString => JUndefined
                  | String c _ => JStr (String c EmptyString)
                  end)
  | JObj props => Ok (own_property "0" props)
  | _ => Ok JUndefined
  end.

(** ** Strings of the prompt *)

Definition chr (code : nat) : string := String (Ascii.ascii_of_nat code) EmptyString.

(** Line feed and the double quote. *)
Definition nl : string := chr 10.
Definition dq : string := chr 34.

(** [!x] for a [string | null] field: null, missing and the empty string
    are falsy. *)
Definition truthy (a : nullable string) : bool :=
  match a with
  | Val s => negb (String.eqb s EmptyString)
  | _ => false
  end.

(** The text a template literal substitutes for a [string | null]. *)
Definition to_text (a : nullable string) : string :=
  match a with
  | Val s => s
  | Null => "null"
  | Missing => "undefined"
  end.

(** [a || dflt] *)
Definition or_else (a : nullable string) (dflt : string) : string :=
  if truthy a then to_text a else dflt.

Definition join (sep : string) (l : list string) : string := String.concat sep l.

Definition system_prompt (interviewData : InterviewDocModel) : string :=
  "You are an expert technical interviewer for " ++
  or_else (domain interviewData) "technology" ++ " positions." ++ nl ++
  "Evaluate the candidate's answer to the interview question." ++ nl ++
  "Consider technical accuracy, clarity, completeness." ++ nl ++
  "Score from 0-5 and provide brief, specific feedback." ++ nl ++
  "Format as JSON: {" ++ dq ++ "score" ++ dq ++ ": number, " ++
  dq ++ "explanation" ++ dq ++ ": " ++ dq ++ "string" ++ dq ++ "}".

Definition user_prompt (q : InterviewQuestion) : string :=
  "Question: " ++ question q ++ nl ++ nl ++
  "Candidate's Answer: " ++ to_text (candidateAnswer q) ++ nl ++ nl ++
  "Difficulty: " ++ difficulty q ++ nl ++
  "Topics: " ++ topic q ++ nl ++
  "Keywords: " ++ join ", " (keywords q).

Definition build_messages (interviewData : InterviewDocModel)
    (q : InterviewQuestion) : list ChatMessage :=
  [ {| role := "system"; content := system_prompt interviewData |};
    {| role := "user"; content := user_prompt q |} ].

Definition deepseek_url : string := "https://api.deepseek.com/chat/completions".

Definition chat_request (interviewData : InterviewDocModel)
    (q : InterviewQuestion) : ChatRequest :=
  {| messages := build_messages interviewData q;
     model := "deepseek-chat";
     response_format := "json_object" |}.

(** [{...question, score: s, explanation: e}] *)
Definition with_evaluation (q : InterviewQuestion) (s e : jsval) : InterviewQuestion :=
  {| difficulty := difficulty q;
     keywords := keywords q;
     question := question q;
     topic := topic q;
     candidateAnswer := candidateAnswer q;
     score := s;
     explanation := e |}.

Definition no_answer (q : InterviewQuestion) : InterviewQuestion :=
  with_evaluation q (JNum 0) (JStr "No answer provided").

Definition error_placeholder (q : InterviewQuestion) : InterviewQuestion :=
  with_evaluation q (JNum 0) (JStr "Error evaluating answer. Please try again later.").

(** ** Logging *)

Definition logger_info (text : string) (d : LogDetail) : M unit :=
  fun w => (Ok tt, emit (EvLogInfo text d) w).

Definition logger_error (text : string) (d : LogDetail) : M unit :=
  fun w => (Ok tt, emit (EvLogError text d) w).

(** How axios settles the exchange: it rejects on a network error and
    when the status of the final response is outside 200..299 (its default
    [validateStatus]). *)
Definition settle (o : HttpOutcome) : Result AxiosResponse :=
  match o with
  | NetworkError => Throw (AxiosError None)
  | HttpResponse status body =>
      if (200 <=? status)%Z && (status <? 300)%Z
      then Ok {| resp_status := status; resp_data := body |}
      else Throw (AxiosError (Some status))
  end.

(** The [message] constant of [sendEvaluationNotification]. *)
Definition evaluation_message (docId : string) : Notification :=
  {| n_type := "interview_evaluation";
     n_title := "Interview Evaluation Ready";
     n_message := "Your mock interview has been evaluated! Tap to view results.";
     n_docId := docId;
     n_topic := "interview-evaluation-" ++ docId |}.

(** ** The program *)

Section Program.

(** The chat-completion endpoint as axios sees it: how the exchange of the
    [n]-th POST of the run (counting from 0) ends, which may depend on what
    was posted. *)
Variable http_post : nat -> string -> ChatRequest -> HttpOutcome.

(** The runtime's [JSON.parse]; [None] is a [SyntaxError]. *)
Variable JSON_parse : jsval -> option jsval.

(** The messaging service: [true] when [send] resolves. *)
Variable fcm_send : Notification -> bool.

(** The document store: [true] when the request itself is rejected
    (unreachable store, refused payload). *)
Variable fs_get_fails : string -> string -> bool.
Variable fs_update_fails : string -> string -> UpdateData -> bool.

Local Open Scope js_scope.

(** [axios.post]: the request is issued, then settled by [settle]. *)
Definition axios_post (url : string) (req : ChatRequest) : M AxiosResponse :=
  fun w =>
    (settle (http_post (posts (trace w)) url req), emit (EvPost url req) w).

Definition parse_json (text : jsval) : Result jsval :=
  match JSON_parse text with
  | Some v => Ok v
  | None => Throw SyntaxError
  end.

(** [response.data.choices[0].message.content] *)
Definition first_choice_content (response : AxiosResponse) : Result jsval :=
  choices <~ get_prop "choices" (resp_data response) ;;
  choice <~ get_first choices ;;
  message <~ get_prop "message" choice ;;
  get_prop "content" message.

(** The statements of the [try] block. *)
Definition ask_model (interviewData : InterviewDocModel) (q : InterviewQuestion)
    (evaluatedQuestions : list InterviewQuestion) : M (list InterviewQuestion) :=
  response <- axios_post deepseek_url (chat_request interviewData q) ;;
  aiResponse <- lift (first_choice_content response) ;;
  evaluation <- lift (parse_json aiResponse) ;;
  s <- lift (get_prop "score" evaluation) ;;
  e <- lift (get_prop "explanation" evaluation) ;;
  ret (push evaluatedQuestions (with_evaluation q s e)).

(** One iteration of the [for ... of] loop. *)
Definition evaluate_question (interviewData : InterviewDocModel)
    (q : InterviewQuestion) (evaluatedQuestions : list InterviewQuestion)
    : M (list InterviewQuestion) :=
  if negb (truthy (candidateAnswer q)) then
    ret (push evaluatedQuestions (no_answer q))
  else
    try_catch
      (ask_model interviewData q evaluatedQuestions)
      (fun error =>
         logger_error "Error calling DeepSeek API" (LogError error) ;;;
         ret (push evaluatedQuestions (error_placeholder q))).

Fixpoint for_of (interviewData : InterviewDocModel)
    (questions : list InterviewQuestion)
    (evaluatedQuestions : list InterviewQuestion) : M (list InterviewQuestion) :=
  match questions with
  | [] => ret evaluatedQuestions
  | q :: rest =>
      evaluatedQuestions' <- evaluate_question interviewData q evaluatedQuestions ;;
      for_of interviewData rest evaluatedQuestions'
  end.

Definition evaluateInterviewAnswers (interviewData : InterviewDocModel)
    : M (list InterviewQuestion) :=
  match interviewQuestions interviewData with
  | Val questions =>
      if (length questions =? 0)%nat
      then throw (Error "No interview questions found")
      else for_of interviewData questions []
  | _ => throw (Error "No interview questions found")
  end.

(** *** The document store *)

Definition firestore_get (collection doc : string) : M (option StoredDoc) :=
  fun w =>
    let w' := emit (EvGet collection doc) w in
    if fs_get_fails collection doc then (Throw FirestoreError, w')
    else (Ok (store w !! (collection, doc)), w').

Definition apply_update (u : UpdateData) (d : StoredDoc) : StoredDoc :=
  let f := fields d in
  {| fields :=
       {| title := title f;
          questionsCount := questionsCount f;
          domain := domain f;
          topics := topics f;
          doc_difficulty := doc_difficulty f;
          jobDescription := jobDescription f;
          resume := resume f;
          date := date f;
          preciseTime := preciseTime f;
          analysed := default (analysed f) (upd_analysed u);
          evaludationId := evaludationId f;
          interviewQuestions :=
            match upd_interviewQuestions u with
            | Some qs => Val qs
            | None => interviewQuestions f
            end;
          type := type f |};
     evaluationInProgress :=
       match upd_evaluationInProgress u with
       | Some b => Val b
       | None => evaluationInProgress d
       end |}.

(** [update] changes the named fields of an existing document and fails
    when there is none. *)
Definition firestore_update (collection doc : string) (u : UpdateData) : M unit :=
  fun w =>
    let w' := emit (EvUpdate collection doc u) w in
    if fs_update_fails collection doc u then (Throw FirestoreError, w')
    else
      match store w !! (collection, doc) with
      | None => (Throw FirestoreError, w')
      | Some d =>
          (Ok tt, {| store := <[(collection, doc) := apply_update u d]> (store w);
                     trace := trace w' |})
      end.

(** *** The notification *)

Definition messaging_send (n : Notification) : M unit :=
  fun w =>
    let w' := emit (EvSend n) w in
    if fcm_send n then (Ok tt, w') else (Throw MessagingError, w').

Definition sendEvaluationNotification (userId docId : string) : M unit :=
  let message := evaluation_message docId in
  try_catch
    (messaging_send message ;;;
     logger_info "Notification sent successfully" (LogDocId docId))
    (fun error => logger_error "Error sending notification" (LogError error)).

(** *** The callable *)

Definition started : UpdateData :=
  {| upd_interviewQuestions := None;
     upd_analysed := Some false;
     upd_evaluationInProgress := Some true |}.

Definition finished (evaluatedQuestions : list InterviewQuestion) : UpdateData :=
  {| upd_interviewQuestions := Some evaluatedQuestions;
     upd_analysed := Some true;
     upd_evaluationInProgress := Some false |}.

Definition hard_coded_userId : string := "EmlxiPsnXqT38FXVm4TCRywzvQq2".

Definition evaluateMockInterview (request : CallableRequest) : M CallResult :=
  match auth request with
  | None =>
      throw (HttpsError unauthenticated
               "The function must be called while authenticated.")
  | Some _ =>
      let userId := hard_coded_userId in
      let docId := docId (data request) in
      try_catch
        (logger_info "Starting progress evaluation process" (LogDocId docId) ;;;
         let docRef := "users/" ++ userId ++ "/archives" in
         docSnapshot <- firestore_get docRef docId ;;
         logger_info "Starting point 2" (LogDocId docId) ;;;
         match docSnapshot with
         | None => throw (HttpsError not_found "Interview document not found")
         | Some stored =>
             let interviewData := fields stored in
             firestore_update docRef docId started ;;;
             logger_info "Starting point 3" (LogDocId docId) ;;;
             evaluatedQuestions <- evaluateInterviewAnswers interviewData ;;
             firestore_update docRef docId (finished evaluatedQuestions) ;;;
             logger_info "Starting point 4" (LogDocId docId) ;;;
             sendEvaluationNotification userId docId ;;;
             ret {| success := true; result_docId := docId |}
         end)
        (fun error =>
           logger_error "Error evaluating interview" (LogError error) ;;;
           throw (HttpsError internal "Error evaluating interview"))
  end.

End Program.

Arguments evaluate_question http_post JSON_parse interviewData q evaluatedQuestions : simpl never.
Arguments evaluateInterviewAnswers http_post JSON_parse interviewData : simpl never.
Arguments sendEvaluationNotification fcm_send userId docId : simpl never.

(** The collection the callable works on. *)
Definition archives : string := "users/EmlxiPsnXqT38FXVm4TCRywzvQq2/archives".

(** What [sendEvaluationNotification] issues: the send, then one log line. *)
Definition notification_events (fcm_send : Notification -> bool) (docId : string)
    : list Event :=
  [ EvSend (evaluation_message docId);
    if fcm_send (evaluation_message docId)
    then EvLogInfo "Notification sent successfully" (LogDocId docId)
    else EvLogError "Error sending notification" (LogError MessagingError) ].

(** ** What one iteration computes

    The value pushed for a question is a function of the question and of
    the outcome of its own POST. These definitions restate the [try] block
    and the loop without the world; [ask_model_run] and [for_of_run] below
    prove that the program computes exactly them. *)

Section Characterisation.

Variable http_post : nat -> string -> ChatRequest -> HttpOutcome.
Variable JSON_parse : jsval -> option jsval.

(** The [score] and [explanation] read from the outcome of a POST. *)
Definition read_evaluation (o : HttpOutcome) : Result (jsval * jsval) :=
  (response <~ settle o ;;
   aiResponse <~ first_choice_content response ;;
   evaluation <~ parse_json JSON_parse aiResponse ;;
   s <~ get_prop "score" evaluation ;;
   e <~ get_prop "explanation" evaluation ;;
   Ok (s, e))%js.

(** The outcome of the POST for [q] when it is the [n]-th of the run. *)
Definition outcome_at (interviewData : InterviewDocModel) (n : nat)
    (q : InterviewQuestion) : HttpOutcome :=
  http_post n deepseek_url (chat_request interviewData q).

Definition evaluated_item (interviewData : InterviewDocModel) (n : nat)
    (q : InterviewQuestion) : InterviewQuestion :=
  if negb (truthy (candidateAnswer q)) then no_answer q
  else
    match read_evaluation (outcome_at interviewData n q) with
    | Ok (s, e) => with_evaluation q s e
    | Throw _ => error_placeholder q
    end.

(** Number of questions that are sent to the model. *)
Definition answered (qs : list InterviewQuestion) : nat :=
  length (filter (fun q => truthy (candidateAnswer q)) qs).

(** The requests one iteration issues. *)
Definition iteration_events (interviewData : InterviewDocModel) (n : nat)
    (q : InterviewQuestion) : list Event :=
  if negb (truthy (candidateAnswer q)) then []
  else
    EvPost deepseek_url (chat_request interviewData q) ::
    match read_evaluation (outcome_at interviewData n q) with
    | Ok _ => []
    | Throw err => [EvLogError "Error calling DeepSeek API" (LogError err)]
    end.

Definition next_call (n : nat) (q : InterviewQuestion) : nat :=
  if truthy (candidateAnswer q) then S n else n.

Fixpoint loop_events (interviewData : InterviewDocModel) (n : nat)
    (qs : list InterviewQuestion) : list Event :=
  match qs with
  | [] => []
  | q :: rest =>
      (iteration_events interviewData n q ++
       loop_events interviewData (next_call n q) rest)%list
  end.

Fixpoint evaluated_from (interviewData : InterviewDocModel) (n : nat)
    (qs : list InterviewQuestion) : list InterviewQuestion :=
  match qs with
  | [] => []
  | q :: rest =>
      evaluated_item interviewData n q ::
      evaluated_from interviewData (next_call n q) rest
  end.

End Characterisation.

(** The ways a model call fails, as the [try] block sees them. *)
Inductive call_fails (JSON_parse : jsval -> option jsval) : HttpOutcome -> Prop :=
| fails_network :
    call_fails JSON_parse NetworkError
| fails_status status body :
    ~ (200 <= status < 300)%Z ->
    call_fails JSON_parse (HttpResponse status body)
| fails_envelope status body err :
    first_choice_content {| resp_status := status; resp_data := body |} = Throw err ->
    call_fails JSON_parse (HttpResponse status body)
| fails_malformed status body text :
    first_choice_content {| resp_status := status; resp_data := body |} = Ok text ->
    JSON_parse text = None ->
    call_fails JSON_parse (HttpResponse status body)
| fails_null status body text :
    first_choice_content {| resp_status := status; resp_data := body |} = Ok text ->
    JSON_parse text = Some JNull ->
    call_fails JSON_parse (HttpResponse status body).

Fixpoint has_key (k : string) (props : list (string * jsval)) : bool :=
  match props with
  | [] => false
  | (k', _) :: rest => String.eqb k k' || has_key k rest
  end.

(** A reply that axios accepts and whose content parses to a JSON object
    that has no key [k]. *)
Definition reply_lacks_key (JSON_parse : jsval -> option jsval) (k : string)
    (o : HttpOutcome) : Prop :=
  exists response text props,
    settle o = Ok response /\
    first_choice_content response = Ok text /\
    JSON_parse text = Some (JObj props) /\
    has_key k props = false.

(** A reply the model API is documented to give: status 200 and the text in
    the first choice's message content. *)
Definition chat_reply (text : jsval) : HttpOutcome :=
  HttpResponse 200
    (JObj [("choices", JArr [JObj [("message", JObj [("content", text)])]])]).

(** ** Sample data *)

Module Samples.

(** The question of the end-to-end scenarios. *)
Definition q_hash : InterviewQuestion :=
  {| difficulty := "easy";
     keywords := ["hash"; "map"];
     question := "What is a hash map?";
     topic := "data structures";
     candidateAnswer := Val "A key-value store";
     score := JNum 0;
     explanation := JStr EmptyString |}.

Definition q_null : InterviewQuestion :=
  {| difficulty := "hard";
     keywords := ["lock"];
     question := "What is a mutex?";
     topic := "concurrency";
     candidateAnswer := Null;
     score := JNum 3;
     explanation := JStr "stale" |}.

Definition q_blank : InterviewQuestion :=
  {| difficulty := "medium";
     keywords := [];
     question := "What is a trie?";
     topic := "data structures";
     candidateAnswer := Val EmptyString;
     score := JNum 0;
     explanation := JStr EmptyString |}.

Definition doc_of (qs : nullable (list InterviewQuestion)) : InterviewDocModel :=
  {| title := "Mock interview";
     questionsCount := 3;
     domain := Null;
     topics := "data structures";
     doc_difficulty := "easy";
     jobDescription := EmptyString;
     resume := EmptyString;
     date := "2025-01-01";
     preciseTime := "10:00";
     analysed := false;
     evaludationId := Null;
     interviewQuestions := qs;
     type := "mock" |}.

Definition doc3 : InterviewDocModel := doc_of (Val [q_null; q_hash; q_blank]).

(** [{"score":4,"explanation":"Good, could mention collisions"}] *)
Definition good_text : string :=
  "{" ++ dq ++ "score" ++ dq ++ ":4," ++ dq ++ "explanation" ++ dq ++ ":" ++
  dq ++ "Good, could mention collisions" ++ dq ++ "}".

(** [{"explanation":"Good"}]: an object without the [score] key. *)
Definition partial_text : string :=
  "{" ++ dq ++ "explanation" ++ dq ++ ":" ++ dq ++ "Good" ++ dq ++ "}".

(** [JSON.parse] on the two texts above; every other text used in the
    examples ("oops") is not JSON. *)
Definition parse (text : jsval) : option jsval :=
  match text with
  | JStr s =>
      if String.eqb s good_text then
        Some (JObj [("score", JNum 4);
                    ("explanation", JStr "Good, could mention collisions")])
      else if String.eqb s partial_text then
        Some (JObj [("explanation", JStr "Good")])
      else None
  | _ => None
  end.

Definition post_good (n : nat) (url : string) (req : ChatRequest) : HttpOutcome :=
  chat_reply (JStr good_text).

Definition post_partial (n : nat) (url : string) (req : ChatRequest) : HttpOutcome :=
  chat_reply (JStr partial_text).

(** The endpoint is down for the first call only. *)
Definition post_flaky (n : nat) (url : string) (req : ChatRequest) : HttpOutcome :=
  match n with
  | O => NetworkError
  | S _ => chat_reply (JStr good_text)
  end.

Definition w0 : World := {| store := ∅; trace := [] |}.

Definition stored (qs : nullable (list InterviewQuestion)) : StoredDoc :=
  {| fields := doc_of qs; evaluationInProgress := Missing |}.

Definition w_with (d : StoredDoc) : World :=
  {| store := {[ (archives, "doc1") := d ]}; trace := [] |}.

Definition request_from (caller : option string) (doc : string) : CallableRequest :=
  {| auth := (fun u => {| uid := u |}) <$> caller; data := {| docId := doc |} |}.

Definition never (A B : Type) (a : A) (b : B) : bool := false.

End Samples.

(** ** Confinement to one document

    [targets key e]: the request [e], if it is for the document store, is
    for the document [key]. A run is confined to [key] when every request
    it adds to the trace targets [key] and no other document changes. *)

Definition targets (key : string * string) (e : Event) : bool :=
  match e with
  | EvGet c d | EvUpdate c d _ => bool_decide ((c, d) = key)
  | _ => true
  end.

Definition confined_step (key : string * string) (w w' : World) : Prop :=
  (exists evs, trace w' = (trace w ++ evs)%list /\
               Forall (fun e => targets key e = true) evs) /\
  (forall k, k <> key -> store w' !! k = store w !! k).

Definition confined (key : string * string) {A : Type} (m : M A) : Prop :=
  forall w, confined_step key w (snd (m w)).

(** ** What the trace of a run holds *)

Definition is_send (e : Event) : bool :=
  match e with EvSend _ => true | _ => false end.

(** The requests the evaluator can issue: a POST to the chat-completion
    endpoint, or the error line of its [catch]. *)
Definition evaluator_event (e : Event) : bool :=
  match e with
  | EvPost url _ => String.eqb url deepseek_url
  | EvLogError text _ => String.eqb text "Error calling DeepSeek API"
  | _ => false
  end.

(** Two questions that agree on everything the evaluator reads. *)
Definition same_inputs (q q' : InterviewQuestion) : Prop :=
  difficulty q = difficulty q' /\
  keywords q = keywords q' /\
  question q = question q' /\
  topic q = topic q' /\
  candidateAnswer q = candidateAnswer q'.

(** The requests of the callable before the evaluator starts, and after it
    has returned. *)
Definition opening_events (d : string) : list Event :=
  [ EvLogInfo "Starting progress evaluation process" (LogDocId d);
    EvGet archives d;
    EvLogInfo "Starting point 2" (LogDocId d);
    EvUpdate archives d started;
    EvLogInfo "Starting point 3" (LogDocId d) ].

Definition closing_events (fcm_send : Notification -> bool) (d : string)
    (out : list InterviewQuestion) : list Event :=
  (EvUpdate archives d (finished out) ::
   EvLogInfo "Starting point 4" (LogDocId d) ::
   notification_events fcm_send d)%list.

(** The [catch] of the callable: the error is logged. *)
Definition caught (e : JsError) : Event :=
  EvLogError "Error evaluating interview" (LogError e).

(** ** More sample data *)

Module MoreSamples.

Definition doc_in (dom : nullable string)
    (qs : nullable (list InterviewQuestion)) : InterviewDocModel :=
  {| title := "Mock interview";
     questionsCount := 1;
     domain := dom;
     topics := "data structures";
     doc_difficulty := "easy";
     jobDescription := EmptyString;
     resume := EmptyString;
     date := "2025-01-01";
     preciseTime := "10:00";
     analysed := false;
     evaludationId := Null;
     interviewQuestions := qs;
     type := "mock" |}.

(** A store that accepts every request, with one document. *)
Definition accepts_get (collection doc : string) : bool := false.
Definition accepts_update (collection doc : string) (u : UpdateData) : bool := false.
Definition delivers (n : Notification) : bool := true.
Definition bounces (n : Notification) : bool := false.

Definition alice : CallableRequest :=
  {| auth := Some {| uid := "alice" |}; data := {| docId := "doc1" |} |}.

Definition anonymous : CallableRequest :=
  {| auth := None; data := {| docId := "doc1" |} |}.

Definition w_two : World :=
  Samples.w_with (Samples.stored (Val [Samples.q_null; Samples.q_hash])).

Definition w_empty : World := Samples.w_with (Samples.stored (Val [])).

End MoreSamples.

(** ** The other two versions of the handler

    [part_000] holds two earlier versions of [index.ts]. Their loop is the
    loop above but for the statements of the [try] block, so it is written
    once, over those statements. *)

Section LoopOver.

Variable ask :
  InterviewDocModel -> InterviewQuestion -> list InterviewQuestion ->
  M (list InterviewQuestion).

Local Open Scope js_scope.

Definition evaluate_question_over (interviewData : InterviewDocModel)
    (q : InterviewQuestion) (evaluatedQuestions : list InterviewQuestion)
    : M (list InterviewQuestion) :=
  if negb (truthy (candidateAnswer q)) then
    ret (push evaluatedQuestions (no_answer q))
  else
    try_catch
      (ask interviewData q evaluatedQuestions)
      (fun error =>
         logger_error "Error calling DeepSeek API" (LogError error) ;;;
         ret (push evaluatedQuestions (error_placeholder q))).

Fixpoint for_of_over (interviewData : InterviewDocModel)
    (questions : list InterviewQuestion)
    (evaluatedQuestions : list InterviewQuestion) : M (list InterviewQuestion) :=
  match questions with
  | [] => ret evaluatedQuestions
  | q :: rest =>
      evaluatedQuestions' <- evaluate_question_over interviewData q evaluatedQuestions ;;
      for_of_over interviewData rest evaluatedQuestions'
  end.

Definition evaluateInterviewAnswers_over (interviewData : InterviewDocModel)
    : M (list InterviewQuestion) :=
  match interviewQuestions interviewData with
  | Val questions =>
      if (length questions =? 0)%nat
      then throw (Error "No interview questions found")
      else for_of_over interviewData questions []
  | _ => throw (Error "No interview questions found")
  end.

End LoopOver.

(** *** The version that takes the user id from the request

    [userId = request.data.userId]; the model is called through
    request-promise. *)

Module RequestUser.

Record FunctionData : Type := mkData {
  docId : string;
  userId : string;
}.

Record CallableRequest : Type := mkRequest {
  auth : option AuthData;
  data : FunctionData;
}.

Section Handler.

Variable http_post : nat -> string -> ChatRequest -> HttpOutcome.
Variable JSON_parse : jsval -> option jsval.
Variable fcm_send : Notification -> bool.
Variable fs_get_fails : string -> string -> bool.
Variable fs_update_fails : string -> string -> UpdateData -> bool.

(** The error request-promise rejects with (a [RequestError] or a
    [StatusCodeError]). *)
Variable rejection : HttpOutcome -> JsError.

Local Open Scope js_scope.

(** [request.post] with a [json] body: resolves with the parsed body,
    rejects on a network error and on a status outside 200..299.
    [http_post] is here the endpoint as request-promise sees it; it need
    not end an exchange as axios does (request does not follow a
    redirected POST). *)
Definition request_post (url : string) (req : ChatRequest) : M jsval :=
  fun w =>
    (match http_post (posts (trace w)) url req with
     | NetworkError => Throw (rejection NetworkError)
     | HttpResponse status body =>
         if (200 <=? status)%Z && (status <? 300)%Z
         then Ok body
         else Throw (rejection (HttpResponse status body))
     end,
     emit (EvPost url req) w).

(** [response.choices[0].message.content] *)
Definition first_choice_content (response : jsval) : Result jsval :=
  choices <~ get_prop "choices" response ;;
  choice <~ get_first choices ;;
  message <~ get_prop "message" choice ;;
  get_prop "content" message.

Definition ask_model (interviewData : InterviewDocModel) (q : InterviewQuestion)
    (evaluatedQuestions : list InterviewQuestion) : M (list InterviewQuestion) :=
  response <- request_post deepseek_url (chat_request interviewData q) ;;
  aiResponse <- lift (first_choice_content response) ;;
  evaluation <- lift (parse_json JSON_parse aiResponse) ;;
  s <- lift (get_prop "score" evaluation) ;;
  e <- lift (get_prop "explanation" evaluation) ;;
  ret (push evaluatedQuestions (with_evaluation q s e)).

Definition evaluateInterviewAnswers : InterviewDocModel -> M (list InterviewQuestion) :=
  evaluateInterviewAnswers_over ask_model.

Definition evaluateMockInterview (request : CallableRequest) : M CallResult :=
  match auth request with
  | None =>
      throw (HttpsError unauthenticated
               "The function must be called while authenticated.")
  | Some _ =>
      let userId := userId (data request) in
      let docId := docId (data request) in
      try_catch
        (logger_info "Starting progress evaluation process" (LogDocId docId) ;;;
         let docRef := "users/" ++ userId ++ "/archives" in
         docSnapshot <- firestore_get fs_get_fails docRef docId ;;
         logger_info "Starting point 2" (LogDocId docId) ;;;
         match docSnapshot with
         | None => throw (HttpsError not_found "Interview document not found")
         | Some stored =>
             let interviewData := fields stored in
             firestore_update fs_update_fails docRef docId started ;;;
             logger_info "Starting point 3" (LogDocId docId) ;;;
             evaluatedQuestions <- evaluateInterviewAnswers interviewData ;;
             firestore_update fs_update_fails docRef docId (finished evaluatedQuestions) ;;;
             logger_info "Starting point 4" (LogDocId docId) ;;;
             sendEvaluationNotification fcm_send userId docId ;;;
             ret {| success := true; result_docId := docId |}
         end)
        (fun error =>
           logger_error "Error evaluating interview" (LogError error) ;;;
           throw (HttpsError internal "Error evaluating interview"))
  end.

End Handler.

End RequestUser.

(** *** The version that takes the user id from the caller

    [userId = context.auth.uid]; the document is not read, the interview
    comes with the request. *)

Module CallerArchive.

Record FunctionData : Type := mkData {
  docId : string;
  interviewData : InterviewDocModel;
}.

Record CallableContext : Type := mkContext {
  auth : option AuthData;
}.

(** The spaces that start the lines of the system prompt after the first. *)
Definition indent : string := "                 ".

Definition system_prompt (interviewData : InterviewDocModel) : string :=
  "You are an expert technical interviewer for " ++
  or_else (domain interviewData) "technology" ++ " positions. " ++ nl ++
  indent ++ "Evaluate the candidate's answer to the interview question. " ++ nl ++
  indent ++ "Consider technical accuracy, clarity, completeness, and relevance." ++ nl ++
  indent ++ "Score from 0-5 and provide brief, specific feedback." ++ nl ++
  indent ++ "Format your response as JSON: {" ++ dq ++ "score" ++ dq ++ ": number, " ++
  dq ++ "explanation" ++ dq ++ ": " ++ dq ++ "string" ++ dq ++ "}".

Definition user_prompt (q : InterviewQuestion) : string :=
  "Question: " ++ question q ++ nl ++ nl ++
  "Candidate's Answer: " ++ to_text (candidateAnswer q) ++ nl ++ nl ++
  "Difficulty: " ++ difficulty q ++ nl ++
  "Topics: " ++ topic q ++ nl ++
  "Keywords to look for: " ++ join ", " (keywords q).

Definition chat_request (interviewData : InterviewDocModel)
    (q : InterviewQuestion) : ChatRequest :=
  {| messages :=
       [ {| role := "system"; content := system_prompt interviewData |};
         {| role := "user"; content := user_prompt q |} ];
     model := "deepseek-chat";
     response_format := "json_object" |}.

Section Handler.

Variable http_post : nat -> string -> ChatRequest -> HttpOutcome.
Variable JSON_parse : jsval -> option jsval.
Variable fcm_send : Notification -> bool.
Variable fs_update_fails : string -> string -> UpdateData -> bool.

Local Open Scope js_scope.

Definition ask_model (interviewData : InterviewDocModel) (q : InterviewQuestion)
    (evaluatedQuestions : list InterviewQuestion) : M (list InterviewQuestion) :=
  response <- axios_post http_post deepseek_url (chat_request interviewData q) ;;
  aiResponse <- lift (first_choice_content response) ;;
  evaluation <- lift (parse_json JSON_parse aiResponse) ;;
  s <- lift (get_prop "score" evaluation) ;;
  e <- lift (get_prop "explanation" evaluation) ;;
  ret (push evaluatedQuestions (with_evaluation q s e)).

Definition evaluateInterviewAnswers : InterviewDocModel -> M (list InterviewQuestion) :=
  evaluateInterviewAnswers_over ask_model.

Definition evaluateMockInterview (data : FunctionData) (context : CallableContext)
    : M CallResult :=
  match auth context with
  | None =>
      throw (HttpsError unauthenticated
               "The function must be called while authenticated.")
  | Some caller =>
      let userId := uid caller in
      let docId := docId data in
      let interviewData := interviewData data in
      try_catch
        (logger_info "Starting evaluation process" (LogDocId docId) ;;;
         firestore_update fs_update_fails ("users/" ++ userId ++ "/archives") docId
           started ;;;
         evaluatedQuestions <- evaluateInterviewAnswers interviewData ;;
         firestore_update fs_update_fails ("users/" ++ userId ++ "/archives") docId
           (finished evaluatedQuestions) ;;;
         sendEvaluationNotification fcm_send userId docId ;;;
         ret {| success := true; result_docId := docId |})
        (fun error =>
           logger_error "Error evaluating interview" (LogError error) ;;;
           throw (HttpsError internal "Error evaluating interview"))
  end.

End Handler.

End CallerArchive.

(** A computation is quiet when it leaves the store as it is and issues
    neither a store request nor a notification. *)
Definition quiet {A : Type} (m : M A) : Prop :=
  forall w, exists evs,
    snd (m w) = extend w evs /\
    filter is_store_op evs = [] /\
    filter is_send evs = [].

Module PostSamples.

Definition q_stack : InterviewQuestion :=
  {| difficulty := "easy";
     keywords := ["stack"];
     question := "What is a stack?";
     topic := "data structures";
     candidateAnswer := Val "Last in, first out";
     score := JNum 0;
     explanation := JStr EmptyString |}.

End PostSamples.

Module VariantSamples.

Definition alice_archive : string := "users/alice/archives".

(** The store holds [doc1] in alice's archive, with a stale question list. *)
Definition w_alice : World :=
  {| store := {[ (alice_archive, "doc1") := Samples.stored (Val [Samples.q_blank]) ]};
     trace := [] |}.

Definition data_hash : CallerArchive.FunctionData :=
  {| CallerArchive.docId := "doc1";
     CallerArchive.interviewData := Samples.doc_of (Val [Samples.q_hash]) |}.

Definition as_alice : CallerArchive.CallableContext :=
  {| CallerArchive.auth := Some {| uid := "alice" |} |}.

Definition as_bob : CallerArchive.CallableContext :=
  {| CallerArchive.auth := Some {| uid := "bob" |} |}.

End VariantSamples.

(** * Verification *)

(** ** Worlds and traces *)

Lemma extend_nil (w : World) : extend w [] = w.
Proof. destruct w as [st tr]. unfold extend; simpl. by rewrite app_nil_r. Qed.

Lemma extend_extend (w : World) (e1 e2 : list Event) :
  extend (extend w e1) e2 = extend w (e1 ++ e2).
Proof. unfold extend; simpl. by rewrite app_assoc. Qed.

Lemma emit_extend (w : World) (e : Event) : emit e w = extend w [e].
Proof. reflexivity. Qed.

Lemma posts_app (t1 t2 : list Event) : posts (t1 ++ t2) = posts t1 + posts t2.
Proof. unfold posts. by rewrite filter_app, length_app. Qed.

(** ** The loop computes the characterisation *)

Section Loop.

Variable post : nat -> string -> ChatRequest -> HttpOutcome.
Variable parse : jsval -> option jsval.


Lemma ask_model_run doc q acc w :
  ask_model post parse doc q acc w =
    (match read_evaluation parse (outcome_at post doc (posts (trace w)) q) with
     | Ok (s, e) => Ok (push acc (with_evaluation q s e))
     | Throw err => Throw err
     end,
     emit (EvPost deepseek_url (chat_request doc q)) w).
Proof.
  unfold ask_model, read_evaluation, outcome_at,
    axios_post, bind, lift, ret, rbind.
  destruct (settle _) as [response|err]; [|done].
  destruct (first_choice_content response) as [text|err]; [|done].
  destruct (parse_json parse text) as [v|err]; [|done].
  destruct (get_prop "score" v) as [s|err]; [|done].
  by destruct (get_prop "explanation" v) as [e|err].
Qed.

Lemma evaluate_question_run doc q acc w :
  evaluate_question post parse doc q acc w =
    (Ok (push acc (evaluated_item post parse doc (posts (trace w)) q)),
     extend w (iteration_events post parse doc (posts (trace w)) q)).
Proof.
  unfold evaluate_question, evaluated_item,
    iteration_events.
  destruct (negb (truthy (candidateAnswer q))).
  - unfold ret. by rewrite extend_nil.
  - unfold try_catch. rewrite ask_model_run.
    destruct (read_evaluation parse _) as [[s e]|err]; [done|].
    unfold bind, logger_error, ret. by rewrite !emit_extend, extend_extend.
Qed.

Lemma posts_iteration_events doc n q :
  posts (iteration_events post parse doc n q) = if truthy (candidateAnswer q) then 1 else 0.
Proof.
  unfold iteration_events.
  destruct (truthy (candidateAnswer q)); simpl; [|done].
  by destruct (read_evaluation parse _).
Qed.

Lemma for_of_run doc qs : forall acc w,
  for_of post parse doc qs acc w =
    (Ok (acc ++ evaluated_from post parse doc (posts (trace w)) qs)%list,
     extend w (loop_events post parse doc (posts (trace w)) qs)).
Proof.
  induction qs as [|q rest IH]; intros acc w; simpl.
  - unfold ret. by rewrite app_nil_r, extend_nil.
  - unfold bind. rewrite evaluate_question_run, IH.
    rewrite extend_extend. unfold push. rewrite <- app_assoc. simpl.
    assert (posts (trace w ++ iteration_events post parse doc (posts (trace w)) q)
            = next_call (posts (trace w)) q) as ->; [|done].
    rewrite posts_app, posts_iteration_events. unfold next_call.
    destruct (truthy (candidateAnswer q)); lia.
Qed.

(** The run of the evaluator on a non-empty list. *)
Lemma evaluateInterviewAnswers_run doc qs w :
  interviewQuestions doc = Val qs -> qs <> [] ->
  evaluateInterviewAnswers post parse doc w =
    (Ok (evaluated_from post parse doc (posts (trace w)) qs),
     extend w (loop_events post parse doc (posts (trace w)) qs)).
Proof.
  intros Hqs Hne. unfold evaluateInterviewAnswers. rewrite Hqs.
  destruct qs as [|q rest]; [done|]. cbn [length Nat.eqb].
  by rewrite for_of_run.
Qed.

Lemma answered_cons q rest :
  answered (q :: rest) =
    (if truthy (candidateAnswer q) then 1 else 0) + answered rest.
Proof.
  unfold answered. rewrite filter_cons.
  by destruct (truthy (candidateAnswer q)).
Qed.

Lemma length_evaluated_from doc qs : forall n,
  length (evaluated_from post parse doc n qs) = length qs.
Proof. induction qs as [|q rest IH]; intros n; simpl; [done|]. by rewrite IH. Qed.

(** Position [i] holds the evaluation of the [i]-th question, made with
    the call numbered by the answered questions before it. *)
Lemma lookup_evaluated_from doc qs : forall n i q,
  qs !! i = Some q ->
  evaluated_from post parse doc n qs !! i =
    Some (evaluated_item post parse doc (n + answered (take i qs)) q).
Proof.
  induction qs as [|x rest IH]; intros n i q Hi; [done|].
  destruct i as [|i]; simpl in *.
  - injection Hi as ->. by rewrite Nat.add_0_r.
  - rewrite (IH _ _ _ Hi).
    assert (next_call n x + answered (take i rest)
            = n + answered (x :: take i rest)) as ->; [|done].
    rewrite answered_cons. unfold next_call.
    destruct (truthy (candidateAnswer x)); lia.
Qed.

Lemma posts_loop_events doc qs : forall n,
  posts (loop_events post parse doc n qs) = answered qs.
Proof.
  induction qs as [|q rest IH]; intros n; simpl; [done|].
  by rewrite posts_app, posts_iteration_events, IH, answered_cons.
Qed.

(** The loop never touches the document store. *)
Lemma store_ops_loop_events doc qs : forall n,
  filter is_store_op (loop_events post parse doc n qs) = [].
Proof.
  induction qs as [|q rest IH]; intros n; simpl; [done|].
  rewrite filter_app, IH, app_nil_r. unfold iteration_events.
  destruct (negb (truthy (candidateAnswer q))); [done|].
  by destruct (read_evaluation parse _).
Qed.

Lemma evaluated_item_shape doc n q :
  exists s e, evaluated_item post parse doc n q = with_evaluation q s e.
Proof.
  unfold evaluated_item, no_answer, error_placeholder.
  destruct (negb (truthy (candidateAnswer q))); [by eauto|].
  destruct (read_evaluation parse _) as [[s e]|err]; by eauto.
Qed.

Lemma evaluated_item_falsy doc n q :
  truthy (candidateAnswer q) = false ->
  evaluated_item post parse doc n q = no_answer q.
Proof. intros H. unfold evaluated_item. by rewrite H. Qed.

Lemma evaluate_question_falsy doc q acc w :
  truthy (candidateAnswer q) = false ->
  evaluate_question post parse doc q acc w = (Ok (push acc (no_answer q)), w).
Proof.
  intros H. rewrite evaluate_question_run.
  unfold evaluated_item, iteration_events. rewrite H; simpl.
  by rewrite extend_nil.
Qed.

Lemma call_fails_throws o :
  call_fails parse o -> exists err, read_evaluation parse o = Throw err.
Proof.
  unfold read_evaluation, parse_json.
  destruct 1 as [|status body Hst|status body err Hc|status body text Hc Hp
                 |status body text Hc Hp]; simpl.
  - by eauto.
  - destruct (200 <=? status)%Z eqn:H1, (status <? 300)%Z eqn:H2; simpl; eauto.
    exfalso. apply Hst. lia.
  - destruct (_ && _); simpl; [|by eauto]. rewrite Hc; simpl. by eauto.
  - destruct (_ && _); simpl; [|by eauto]. rewrite Hc; simpl. rewrite Hp; simpl.
    by eauto.
  - destruct (_ && _); simpl; [|by eauto]. rewrite Hc; simpl. rewrite Hp; simpl.
    by eauto.
Qed.

Lemma evaluated_item_failure doc n q :
  truthy (candidateAnswer q) = true ->
  call_fails parse (outcome_at post doc n q) ->
  evaluated_item post parse doc n q = error_placeholder q.
Proof.
  intros Ht [err Herr]%call_fails_throws.
  unfold evaluated_item. by rewrite Ht, Herr.
Qed.

Lemma evaluated_item_success doc n q response text v s e :
  truthy (candidateAnswer q) = true ->
  settle (outcome_at post doc n q) = Ok response ->
  first_choice_content response = Ok text ->
  parse text = Some v ->
  get_prop "score" v = Ok s ->
  get_prop "explanation" v = Ok e ->
  evaluated_item post parse doc n q = with_evaluation q s e.
Proof.
  intros Ht Hs Hc Hp Hsc He. unfold evaluated_item, read_evaluation, parse_json.
  rewrite Ht, Hs; simpl. rewrite Hc; simpl. rewrite Hp; simpl.
  rewrite Hsc; simpl. by rewrite He.
Qed.

Lemma answered_take_lt qs : forall i j q,
  i < j -> qs !! i = Some q -> truthy (candidateAnswer q) = true ->
  answered (take i qs) < answered (take j qs).
Proof.
  induction qs as [|x rest IH]; intros i j q Hij Hi Ht; [done|].
  destruct j as [|j]; [lia|]. destruct i as [|i]; simpl in *.
  - injection Hi as ->. rewrite answered_cons, Ht. unfold answered; simpl. lia.
  - rewrite !answered_cons.
    assert (answered (take i rest) < answered (take j rest)); [|lia].
    apply (IH i j q); [lia|done..].
Qed.

End Loop.

(** A failed call leaves every other position as it would have been: two
    endpoints that differ only in the answer to one call give the same
    evaluations everywhere but at the question of that call. *)
Lemma evaluated_from_isolated post post' parse doc qs n i q :
  qs !! i = Some q -> truthy (candidateAnswer q) = true ->
  (forall m url req, m <> n + answered (take i qs) -> post' m url req = post m url req) ->
  forall j, j <> i ->
    evaluated_from post' parse doc n qs !! j = evaluated_from post parse doc n qs !! j.
Proof.
  intros Hi Ht Hsame j Hj.
  destruct (qs !! j) as [qj|] eqn:Hqj.
  - rewrite !(lookup_evaluated_from _ _ _ _ _ _ _ Hqj). f_equal.
    unfold evaluated_item.
    destruct (truthy (candidateAnswer qj)) eqn:Htj; simpl; [|done].
    unfold outcome_at. rewrite Hsame; [done|].
    destruct (decide (j < i)).
    + pose proof (answered_take_lt qs j i qj ltac:(lia) Hqj Htj). lia.
    + pose proof (answered_take_lt qs i j q ltac:(lia) Hi Ht). lia.
  - apply lookup_ge_None in Hqj.
    transitivity (@None InterviewQuestion); [|symmetry];
      apply lookup_ge_None; by rewrite length_evaluated_from.
Qed.

(** ** The evaluator *)

(** C1. For a document whose [interviewQuestions] is a non-empty list, the
    evaluator returns a list of the same length in the same order: the item
    at each position is the input item of that position with [score] and
    [explanation] overwritten, and [difficulty], [keywords], [question],
    [topic] and [candidateAnswer] unchanged. *)
Theorem evaluate_same_length_and_order
    (post : nat -> string -> ChatRequest -> HttpOutcome)
    (parse : jsval -> option jsval)
    (doc : InterviewDocModel) (qs : list InterviewQuestion) (w : World) :
  interviewQuestions doc = Val qs ->
  qs <> [] ->
  exists out w',
    evaluateInterviewAnswers post parse doc w = (Ok out, w') /\
    length out = length qs /\
    forall i q, qs !! i = Some q ->
      exists o, out !! i = Some o /\
        o = with_evaluation q (score o) (explanation o) /\
        difficulty o = difficulty q /\
        keywords o = keywords q /\
        question o = question q /\
        topic o = topic q /\
        candidateAnswer o = candidateAnswer q.
Proof.
  intros Hqs Hne. eexists _, _.
  split; [by apply evaluateInterviewAnswers_run|].
  split; [by apply length_evaluated_from|].
  intros i q Hi. eexists. split; [by apply lookup_evaluated_from|].
  destruct (evaluated_item_shape post parse doc
              (posts (trace w) + answered (take i qs)) q) as (s & e & ->).
  done.
Qed.

Lemma evaluate_same_length_and_order_witness :
  exists out w',
    evaluateInterviewAnswers Samples.post_good Samples.parse Samples.doc3 Samples.w0
      = (Ok out, w') /\
    length out = 3 /\
    forall i q, [Samples.q_null; Samples.q_hash; Samples.q_blank] !! i = Some q ->
      exists o, out !! i = Some o /\
        o = with_evaluation q (score o) (explanation o) /\
        difficulty o = difficulty q /\
        keywords o = keywords q /\
        question o = question q /\
        topic o = topic q /\
        candidateAnswer o = candidateAnswer q.
Proof.
  apply (evaluate_same_length_and_order Samples.post_good Samples.parse
           Samples.doc3 [Samples.q_null; Samples.q_hash; Samples.q_blank] Samples.w0).
  - reflexivity.
  - discriminate.
Defined.

(** A question whose answer is falsy gets the "No answer provided" copy at
    its position, and its iteration issues no request at all. *)
Lemma falsy_answer_not_sent post parse doc qs i q w :
  interviewQuestions doc = Val qs ->
  qs !! i = Some q ->
  truthy (candidateAnswer q) = false ->
  (exists out w',
     evaluateInterviewAnswers post parse doc w = (Ok out, w') /\
     out !! i = Some (with_evaluation q (JNum 0) (JStr "No answer provided")) /\
     posts (trace w') = posts (trace w) + answered qs) /\
  (forall acc w1,
     evaluate_question post parse doc q acc w1 =
       (Ok (push acc (with_evaluation q (JNum 0) (JStr "No answer provided"))), w1)).
Proof.
  intros Hqs Hi Hf. split.
  - eexists _, _. split.
    + apply evaluateInterviewAnswers_run; [done|]. by intros ->.
    + split.
      * rewrite (lookup_evaluated_from _ _ _ _ _ _ _ Hi).
        by rewrite evaluated_item_falsy.
      * simpl. by rewrite posts_app, posts_loop_events.
  - intros acc w1. by apply evaluate_question_falsy.
Qed.

(** C3. A question whose [candidateAnswer] is absent (null or missing) gets,
    at its position, a copy with [score] 0 and [explanation]
    "No answer provided" and its five other fields as they were. No model
    call is made for it: its iteration leaves the world as it found it, and
    the whole run posts once per question that is sent, of which this one
    is none. *)
Theorem absent_answer_not_sent
    (post : nat -> string -> ChatRequest -> HttpOutcome)
    (parse : jsval -> option jsval)
    (doc : InterviewDocModel) (qs : list InterviewQuestion)
    (i : nat) (q : InterviewQuestion) (w : World) :
  interviewQuestions doc = Val qs ->
  qs !! i = Some q ->
  candidateAnswer q = Null \/ candidateAnswer q = Missing ->
  (exists out w',
     evaluateInterviewAnswers post parse doc w = (Ok out, w') /\
     out !! i = Some
       {| difficulty := difficulty q;
          keywords := keywords q;
          question := question q;
          topic := topic q;
          candidateAnswer := candidateAnswer q;
          score := JNum 0;
          explanation := JStr "No answer provided" |} /\
     posts (trace w') = posts (trace w) + answered qs) /\
  answered (take (S i) qs) = answered (take i qs) /\
  (forall acc w1,
     evaluate_question post parse doc q acc w1 =
       (Ok (acc ++
            [ {| difficulty := difficulty q;
                 keywords := keywords q;
                 question := question q;
                 topic := topic q;
                 candidateAnswer := candidateAnswer q;
                 score := JNum 0;
                 explanation := JStr "No answer provided" |} ])%list, w1)).
Proof.
  intros Hqs Hi Habs.
  assert (truthy (candidateAnswer q) = false) as Hf by (by destruct Habs as [-> | ->]).
  destruct (falsy_answer_not_sent post parse doc qs i q w Hqs Hi Hf)
    as [(out & w' & Hrun & Hout & Hposts) Hstep].
  split; [|split].
  - exists out, w'. split; [exact Hrun|]. split; [exact Hout|exact Hposts].
  - rewrite (take_S_r _ _ _ Hi). unfold answered.
    rewrite filter_app, length_app, filter_cons, Hf. simpl. lia.
  - intros acc w1. exact (Hstep acc w1).
Qed.

Lemma absent_answer_not_sent_witness :
  (exists out w',
     evaluateInterviewAnswers Samples.post_good Samples.parse Samples.doc3 Samples.w0
       = (Ok out, w') /\
     out !! 0 = Some
       {| difficulty := "hard";
          keywords := ["lock"];
          question := "What is a mutex?";
          topic := "concurrency";
          candidateAnswer := Null;
          score := JNum 0;
          explanation := JStr "No answer provided" |} /\
     posts (trace w') = posts (trace Samples.w0) +
                        answered [Samples.q_null; Samples.q_hash; Samples.q_blank]) /\
  answered (take 1 [Samples.q_null; Samples.q_hash; Samples.q_blank]) =
    answered (take 0 [Samples.q_null; Samples.q_hash; Samples.q_blank]) /\
  (forall acc w1,
     evaluate_question Samples.post_good Samples.parse Samples.doc3 Samples.q_null acc w1 =
       (Ok (acc ++
            [ {| difficulty := "hard";
                 keywords := ["lock"];
                 question := "What is a mutex?";
                 topic := "concurrency";
                 candidateAnswer := Null;
                 score := JNum 0;
                 explanation := JStr "No answer provided" |} ])%list,
        w1)).
Proof.
  apply (absent_answer_not_sent Samples.post_good Samples.parse Samples.doc3
           [Samples.q_null; Samples.q_hash; Samples.q_blank] 0 Samples.q_null Samples.w0).
  - reflexivity.
  - reflexivity.
  - left. reflexivity.
Defined.

(** C9. A question whose [candidateAnswer] is the empty string is treated
    like an absent one, the test being [!question.candidateAnswer]: it gets
    the copy with [score] 0 and [explanation] "No answer provided", and no
    model call is made for it. *)
Theorem empty_answer_not_sent
    (post : nat -> string -> ChatRequest -> HttpOutcome)
    (parse : jsval -> option jsval)
    (doc : InterviewDocModel) (qs : list InterviewQuestion)
    (i : nat) (q : InterviewQuestion) (w : World) :
  interviewQuestions doc = Val qs ->
  qs !! i = Some q ->
  candidateAnswer q = Val EmptyString ->
  (exists out w',
     evaluateInterviewAnswers post parse doc w = (Ok out, w') /\
     out !! i = Some
       {| difficulty := difficulty q;
          keywords := keywords q;
          question := question q;
          topic := topic q;
          candidateAnswer := candidateAnswer q;
          score := JNum 0;
          explanation := JStr "No answer provided" |} /\
     posts (trace w') = posts (trace w) + answered qs) /\
  answered (take (S i) qs) = answered (take i qs) /\
  (forall acc w1,
     evaluate_question post parse doc q acc w1 =
       (Ok (acc ++
            [ {| difficulty := difficulty q;
                 keywords := keywords q;
                 question := question q;
                 topic := topic q;
                 candidateAnswer := candidateAnswer q;
                 score := JNum 0;
                 explanation := JStr "No answer provided" |} ])%list, w1)).
Proof.
  intros Hqs Hi Hempty.
  assert (truthy (candidateAnswer q) = false) as Hf by (by rewrite Hempty).
  destruct (falsy_answer_not_sent post parse doc qs i q w Hqs Hi Hf)
    as [(out & w' & Hrun & Hout & Hposts) Hstep].
  split; [|split].
  - exists out, w'. split; [exact Hrun|]. split; [exact Hout|exact Hposts].
  - rewrite (take_S_r _ _ _ Hi). unfold answered.
    rewrite filter_app, length_app, filter_cons, Hf. simpl. lia.
  - intros acc w1. exact (Hstep acc w1).
Qed.

Lemma empty_answer_not_sent_witness :
  (exists out w',
     evaluateInterviewAnswers Samples.post_good Samples.parse Samples.doc3 Samples.w0
       = (Ok out, w') /\
     out !! 2 = Some
       {| difficulty := "medium";
          keywords := [];
          question := "What is a trie?";
          topic := "data structures";
          candidateAnswer := Val EmptyString;
          score := JNum 0;
          explanation := JStr "No answer provided" |} /\
     posts (trace w') = posts (trace Samples.w0) +
                        answered [Samples.q_null; Samples.q_hash; Samples.q_blank]) /\
  answered (take 3 [Samples.q_null; Samples.q_hash; Samples.q_blank]) =
    answered (take 2 [Samples.q_null; Samples.q_hash; Samples.q_blank]) /\
  (forall acc w1,
     evaluate_question Samples.post_good Samples.parse Samples.doc3 Samples.q_blank acc w1 =
       (Ok (acc ++
            [ {| difficulty := "medium";
                 keywords := [];
                 question := "What is a trie?";
                 topic := "data structures";
                 candidateAnswer := Val EmptyString;
                 score := JNum 0;
                 explanation := JStr "No answer provided" |} ])%list,
        w1)).
Proof.
  apply (empty_answer_not_sent Samples.post_good Samples.parse Samples.doc3
           [Samples.q_null; Samples.q_hash; Samples.q_blank] 2 Samples.q_blank Samples.w0).
  - reflexivity.
  - reflexivity.
  - reflexivity.
Defined.

(** C4. For a document whose [interviewQuestions] is absent (null or
    missing) or has length zero, the evaluator throws
    [Error "No interview questions found"]; it returns no result and leaves
    the world untouched, so no model call is made. *)
Theorem evaluate_empty_input_fails
    (post : nat -> string -> ChatRequest -> HttpOutcome)
    (parse : jsval -> option jsval)
    (doc : InterviewDocModel) (w : World) :
  interviewQuestions doc = Missing \/
  interviewQuestions doc = Null \/
  interviewQuestions doc = Val [] ->
  evaluateInterviewAnswers post parse doc w =
    (Throw (Error "No interview questions found"), w).
Proof.
  unfold evaluateInterviewAnswers, throw.
  by intros [-> | [-> | ->]].
Qed.

Lemma evaluate_empty_input_fails_witness :
  evaluateInterviewAnswers Samples.post_good Samples.parse
    (Samples.doc_of (Val [])) Samples.w0 =
    (Throw (Error "No interview questions found"), Samples.w0).
Proof.
  apply (evaluate_empty_input_fails Samples.post_good Samples.parse
           (Samples.doc_of (Val [])) Samples.w0).
  right. right. reflexivity.
Defined.

Lemma truthy_Val (a : string) : a <> EmptyString -> truthy (Val a) = true.
Proof.
  intros Ha. simpl. destruct (String.eqb_spec a EmptyString); [done|reflexivity].
Qed.

(** Whatever the parsed value is, as long as reading its two properties
    does not throw, what is read is what is stored. *)
Lemma parsed_value_copied post parse doc qs i q w response text v s e :
  interviewQuestions doc = Val qs ->
  qs !! i = Some q ->
  truthy (candidateAnswer q) = true ->
  settle (outcome_at post doc (posts (trace w) + answered (take i qs)) q) = Ok response ->
  first_choice_content response = Ok text ->
  parse text = Some v ->
  get_prop "score" v = Ok s ->
  get_prop "explanation" v = Ok e ->
  exists out w',
    evaluateInterviewAnswers post parse doc w = (Ok out, w') /\
    out !! i = Some (with_evaluation q s e).
Proof.
  intros Hqs Hi Ht Hs Hc Hp Hsc He. eexists _, _. split.
  - apply evaluateInterviewAnswers_run; [done|]. by intros ->.
  - rewrite (lookup_evaluated_from _ _ _ _ _ _ _ Hi). f_equal.
    by eapply evaluated_item_success.
Qed.

Lemma own_property_In (k : string) (v : jsval) (props : list (string * jsval)) :
  NoDup (map fst props) -> In (k, v) props -> own_property k props = v.
Proof.
  induction props as [|[k' v'] rest IH]; simpl; [done|].
  intros Hnd [Heq | Hin].
  - injection Heq as -> ->. by rewrite String.eqb_refl.
  - apply NoDup_cons in Hnd as [Hnotin Hnd].
    destruct (String.eqb_spec k k') as [->|Hne]; [|by apply IH].
    exfalso. apply Hnotin. apply list_elem_of_In.
    change k' with (fst (k', v)). by apply in_map.
Qed.

Lemma own_property_no_key (k : string) (props : list (string * jsval)) :
  has_key k props = false -> own_property k props = JUndefined.
Proof.
  induction props as [|[k' v'] rest IH]; simpl; [done|].
  destruct (String.eqb k k'); simpl; [done|apply IH].
Qed.

(** C5. For a question with a non-empty [candidateAnswer] whose reply is
    accepted and whose content parses to a JSON object, the output item at
    its position is the question with, as [score] and [explanation], the
    properties of those names of that object: the value bound to the key
    when the object has it, [undefined] when it has not. Nothing is
    checked: the statement holds for every object, whatever the type or
    range of its values. *)
Theorem parsed_fields_copied
    (post : nat -> string -> ChatRequest -> HttpOutcome)
    (parse : jsval -> option jsval)
    (doc : InterviewDocModel) (qs : list InterviewQuestion)
    (i : nat) (q : InterviewQuestion) (a : string) (w : World)
    (response : AxiosResponse) (text : jsval) (props : list (string * jsval)) :
  interviewQuestions doc = Val qs ->
  qs !! i = Some q ->
  candidateAnswer q = Val a ->
  a <> EmptyString ->
  settle (outcome_at post doc (posts (trace w) + answered (take i qs)) q) = Ok response ->
  first_choice_content response = Ok text ->
  parse text = Some (JObj props) ->
  exists out w' o,
    evaluateInterviewAnswers post parse doc w = (Ok out, w') /\
    out !! i = Some o /\
    o = {| difficulty := difficulty q;
             keywords := keywords q;
             question := question q;
             topic := topic q;
             candidateAnswer := candidateAnswer q;
             score := own_property "score" props;
             explanation := own_property "explanation" props |} /\
    (NoDup (map fst props) ->
     (forall s, In ("score", s) props -> score o = s) /\
     (forall e, In ("explanation", e) props -> explanation o = e)) /\
    (has_key "score" props = false -> score o = JUndefined) /\
    (has_key "explanation" props = false -> explanation o = JUndefined).
Proof.
  intros Hqs Hi Ha Hne Hs Hc Hp.
  assert (truthy (candidateAnswer q) = true) as Ht
    by (rewrite Ha; by apply truthy_Val).
  destruct (parsed_value_copied post parse doc qs i q w response text (JObj props)
              (own_property "score" props) (own_property "explanation" props)
              Hqs Hi Ht Hs Hc Hp eq_refl eq_refl) as (out & w' & Hrun & Hout).
  exists out, w', (with_evaluation q (own_property "score" props)
                     (own_property "explanation" props)).
  split; [done|]. split; [done|]. split; [reflexivity|]. simpl.
  split; [|split]; [|apply own_property_no_key..].
  intros Hnd. split; intros v Hin; by apply own_property_In.
Qed.

Lemma parsed_fields_copied_witness :
  exists out w' o,
    evaluateInterviewAnswers Samples.post_good Samples.parse Samples.doc3 Samples.w0
      = (Ok out, w') /\
    out !! 1 = Some o /\
    o = {| difficulty := "easy";
             keywords := ["hash"; "map"];
             question := "What is a hash map?";
             topic := "data structures";
             candidateAnswer := Val "A key-value store";
             score := JNum 4;
             explanation := JStr "Good, could mention collisions" |} /\
    (NoDup (map fst [("score", JNum 4);
                     ("explanation", JStr "Good, could mention collisions")]) ->
     (forall s, In ("score", s)
                  [("score", JNum 4);
                   ("explanation", JStr "Good, could mention collisions")] ->
                score o = s) /\
     (forall e, In ("explanation", e)
                  [("score", JNum 4);
                   ("explanation", JStr "Good, could mention collisions")] ->
                explanation o = e)) /\
    (has_key "score" [("score", JNum 4);
                      ("explanation", JStr "Good, could mention collisions")] = false ->
     score o = JUndefined) /\
    (has_key "explanation" [("score", JNum 4);
                            ("explanation", JStr "Good, could mention collisions")] = false ->
     explanation o = JUndefined).
Proof.
  apply (parsed_fields_copied Samples.post_good Samples.parse Samples.doc3
           [Samples.q_null; Samples.q_hash; Samples.q_blank] 1 Samples.q_hash
           "A key-value store" Samples.w0
           {| resp_status := 200;
              resp_data := JObj [("choices", JArr [JObj [("message",
                             JObj [("content", JStr Samples.good_text)])]])] |}
           (JStr Samples.good_text)
           [("score", JNum 4); ("explanation", JStr "Good, could mention collisions")]).
  - reflexivity.
  - reflexivity.
  - reflexivity.
  - discriminate.
  - reflexivity.
  - reflexivity.
  - reflexivity.
Defined.

(** C2, as the code has it. For a question with a non-empty
    [candidateAnswer] whose model call fails (network error, final status
    outside 200..299, a reply without [choices[0].message], content that is
    not JSON, content that is the JSON [null]), the run still returns a list as
    long as the input, holding at that position the question with [score] 0
    and [explanation] "Error evaluating answer. Please try again later."
    and its five other fields as they were.
    No other position depends on that call: an endpoint that differs only in
    its answer to it gives the same item at every other position. *)
Theorem failed_call_isolated
    (post : nat -> string -> ChatRequest -> HttpOutcome)
    (parse : jsval -> option jsval)
    (doc : InterviewDocModel) (qs : list InterviewQuestion)
    (i : nat) (q : InterviewQuestion) (a : string) (w : World) :
  interviewQuestions doc = Val qs ->
  qs !! i = Some q ->
  candidateAnswer q = Val a ->
  a <> EmptyString ->
  call_fails parse (outcome_at post doc (posts (trace w) + answered (take i qs)) q) ->
  exists out w',
    evaluateInterviewAnswers post parse doc w = (Ok out, w') /\
    length out = length qs /\
    out !! i = Some
      {| difficulty := difficulty q;
         keywords := keywords q;
         question := question q;
         topic := topic q;
         candidateAnswer := candidateAnswer q;
         score := JNum 0;
         explanation := JStr "Error evaluating answer. Please try again later." |} /\
    forall post' : nat -> string -> ChatRequest -> HttpOutcome,
      (forall m url req,
         m <> posts (trace w) + answered (take i qs) ->
         post' m url req = post m url req) ->
      exists out' w'',
        evaluateInterviewAnswers post' parse doc w = (Ok out', w'') /\
        length out' = length qs /\
        forall j, j <> i -> out' !! j = out !! j.
Proof.
  intros Hqs Hi Ha Hne Hfail.
  assert (truthy (candidateAnswer q) = true) as Ht
    by (rewrite Ha; by apply truthy_Val).
  assert (qs <> []) as Hnil by (by intros ->).
  eexists _, _. split; [by apply evaluateInterviewAnswers_run|].
  split; [by apply length_evaluated_from|]. split.
  - rewrite (lookup_evaluated_from _ _ _ _ _ _ _ Hi). f_equal.
    by apply evaluated_item_failure.
  - intros post' Hsame. eexists _, _.
    split; [by apply evaluateInterviewAnswers_run|].
    split; [by apply length_evaluated_from|].
    intros j Hj. by apply (evaluated_from_isolated post post' parse doc qs _ i q).
Qed.

Lemma failed_call_isolated_witness :
  exists out w',
    evaluateInterviewAnswers Samples.post_flaky Samples.parse
      (Samples.doc_of (Val [Samples.q_hash; Samples.q_hash])) Samples.w0 = (Ok out, w') /\
    length out = 2 /\
    out !! 0 = Some
      {| difficulty := "easy";
         keywords := ["hash"; "map"];
         question := "What is a hash map?";
         topic := "data structures";
         candidateAnswer := Val "A key-value store";
         score := JNum 0;
         explanation := JStr "Error evaluating answer. Please try again later." |} /\
    forall post' : nat -> string -> ChatRequest -> HttpOutcome,
      (forall m url req, m <> 0 -> post' m url req = Samples.post_flaky m url req) ->
      exists out' w'',
        evaluateInterviewAnswers post' Samples.parse
          (Samples.doc_of (Val [Samples.q_hash; Samples.q_hash])) Samples.w0
          = (Ok out', w'') /\
        length out' = 2 /\
        forall j, j <> 0 -> out' !! j = out !! j.
Proof.
  apply (failed_call_isolated Samples.post_flaky Samples.parse
           (Samples.doc_of (Val [Samples.q_hash; Samples.q_hash]))
           [Samples.q_hash; Samples.q_hash] 0 Samples.q_hash
           "A key-value store" Samples.w0).
  - reflexivity.
  - reflexivity.
  - reflexivity.
  - discriminate.
  - simpl. apply fails_network.
Defined.

(** C2, as the claim has it, fails for "missing keys": a reply whose JSON
    object lacks the [score] key is no failure for the code. The item keeps
    the [explanation] of the reply and gets [undefined] as [score]; it has
    neither the [score] 0 nor the explanation of the placeholder. *)
Lemma missing_score_key_is_not_a_failure :
  reply_lacks_key Samples.parse "score"
    (outcome_at Samples.post_partial (Samples.doc_of (Val [Samples.q_hash])) 0
       Samples.q_hash) /\
  exists o,
    fst (evaluateInterviewAnswers Samples.post_partial Samples.parse
           (Samples.doc_of (Val [Samples.q_hash])) Samples.w0) = Ok [o] /\
    o = {| difficulty := "easy";
             keywords := ["hash"; "map"];
             question := "What is a hash map?";
             topic := "data structures";
             candidateAnswer := Val "A key-value store";
             score := JUndefined;
             explanation := JStr "Good" |} /\
    score o <> JNum 0 /\
    explanation o <> JStr "Error evaluating answer. Please try again later.".
Proof.
  split.
  - eexists _, (JStr Samples.partial_text), [("explanation", JStr "Good")].
    repeat split; reflexivity.
  - eexists. split; [reflexivity|]. split; [reflexivity|]. split; discriminate.
Qed.

(** ** The callable *)

Lemma sendEvaluationNotification_run send userId d w :
  sendEvaluationNotification send userId d w =
    (Ok tt, extend w (notification_events send d)).
Proof.
  unfold sendEvaluationNotification, notification_events, try_catch, bind,
    messaging_send, logger_info, logger_error.
  destruct (send (evaluation_message d)); by rewrite !emit_extend, extend_extend.
Qed.

(** Whatever the evaluator does, it only adds requests that are not for the
    document store. *)
Lemma evaluateInterviewAnswers_extends post parse doc w r w' :
  evaluateInterviewAnswers post parse doc w = (r, w') ->
  exists evs, w' = extend w evs /\ filter is_store_op evs = [].
Proof.
  unfold evaluateInterviewAnswers, throw.
  destruct (interviewQuestions doc) as [| |qs].
  - intros [= <- <-]. exists []. by rewrite extend_nil.
  - intros [= <- <-]. exists []. by rewrite extend_nil.
  - destruct qs as [|q rest]; cbn [length Nat.eqb].
    + intros [= <- <-]. exists []. by rewrite extend_nil.
    + rewrite for_of_run. intros [= <- <-]. eexists. split; [done|].
      apply (store_ops_loop_events post parse doc (q :: rest)).
Qed.

(** C7, as the code has it. An invocation that returns successfully has
    read the document once and issued exactly two updates, in this order:
    [{analysed: false, evaluationInProgress: true}] before the evaluator
    starts, and [{interviewQuestions: out, analysed: true,
    evaluationInProgress: false}], with [out] the list the evaluator
    returned, after it. The evaluator itself issues no store request. *)
Theorem successful_invocation_store_requests
    (post : nat -> string -> ChatRequest -> HttpOutcome)
    (parse : jsval -> option jsval)
    (send : Notification -> bool)
    (getf : string -> string -> bool)
    (updf : string -> string -> UpdateData -> bool)
    (request : CallableRequest) (w : World) (r : CallResult) (w' : World) :
  evaluateMockInterview post parse send getf updf request w = (Ok r, w') ->
  exists stored out w1 w2 before during after,
    store w !! (archives, docId (data request)) = Some stored /\
    evaluateInterviewAnswers post parse (fields stored) w1 = (Ok out, w2) /\
    trace w1 = (trace w ++ before)%list /\
    trace w2 = (trace w1 ++ during)%list /\
    trace w' = (trace w2 ++ after)%list /\
    filter is_store_op before =
      [EvGet archives (docId (data request));
       EvUpdate archives (docId (data request))
         {| upd_interviewQuestions := None;
            upd_analysed := Some false;
            upd_evaluationInProgress := Some true |}] /\
    filter is_store_op during = [] /\
    filter is_store_op after =
      [EvUpdate archives (docId (data request))
         {| upd_interviewQuestions := Some out;
            upd_analysed := Some true;
            upd_evaluationInProgress := Some false |}].
Proof.
  intros Hok. unfold evaluateMockInterview in Hok.
  destruct (auth request) as [caller|]; [|done].
  unfold try_catch, bind, logger_info, firestore_get, firestore_update, throw, ret in Hok.
  simpl in Hok.
  destruct (getf _ _); simpl in Hok; [done|].
  change ("users/" ++ hard_coded_userId ++ "/archives") with archives in Hok.
  destruct (store w !! (archives, docId (data request))) as [stored|] eqn:Hget;
    simpl in Hok; [|done].
  destruct (updf _ _ started); simpl in Hok; [done|].
  rewrite Hget in Hok. simpl in Hok.
  destruct (evaluateInterviewAnswers _ _ _ _) as [[out|err] w2] eqn:Hev;
    simpl in Hok; [|done].
  destruct (evaluateInterviewAnswers_extends _ _ _ _ _ _ Hev) as (during & -> & Hduring).
  simpl in Hok. rewrite lookup_insert_eq in Hok.
  destruct (updf _ _ (finished out)); simpl in Hok; [done|].
  rewrite sendEvaluationNotification_run in Hok. simpl in Hok.
  injection Hok as <- <-.
  eexists stored, out, _, _, _, during, _.
  split; [done|]. split; [exact Hev|].
  split; [simpl; unfold push; rewrite <- !app_assoc; reflexivity|].
  split; [reflexivity|].
  split; [simpl; unfold push; rewrite <- !app_assoc; reflexivity|].
  split; [reflexivity|]. split; [done|].
  unfold notification_events. by destruct (send _).
Qed.

Lemma successful_invocation_store_requests_witness :
  let run :=
    evaluateMockInterview Samples.post_good Samples.parse (fun _ => true)
      (Samples.never string string) (fun _ _ _ => false)
      (Samples.request_from (Some "alice") "doc1")
      (Samples.w_with (Samples.stored (Val [Samples.q_null; Samples.q_hash]))) in
  exists stored out w1 w2 before during after,
    store (Samples.w_with (Samples.stored (Val [Samples.q_null; Samples.q_hash])))
      !! (archives, "doc1") = Some stored /\
    evaluateInterviewAnswers Samples.post_good Samples.parse (fields stored) w1
      = (Ok out, w2) /\
    trace w1 = ([] ++ before)%list /\
    trace w2 = (trace w1 ++ during)%list /\
    trace (snd run) = (trace w2 ++ after)%list /\
    filter is_store_op before =
      [EvGet archives "doc1";
       EvUpdate archives "doc1"
         {| upd_interviewQuestions := None;
            upd_analysed := Some false;
            upd_evaluationInProgress := Some true |}] /\
    filter is_store_op during = [] /\
    filter is_store_op after =
      [EvUpdate archives "doc1"
         {| upd_interviewQuestions := Some out;
            upd_analysed := Some true;
            upd_evaluationInProgress := Some false |}].
Proof.
  intros run.
  apply (successful_invocation_store_requests Samples.post_good Samples.parse
           (fun _ => true) (Samples.never string string) (fun _ _ _ => false)
           (Samples.request_from (Some "alice") "doc1")
           (Samples.w_with (Samples.stored (Val [Samples.q_null; Samples.q_hash])))
           {| success := true; result_docId := "doc1" |} (snd run)).
  vm_compute. reflexivity.
Defined.

(** C7, as the claim has it, fails: an authenticated invocation on a stored
    document whose question list is empty reads it, issues the first
    update, and fails in the evaluator. The second update is never issued
    and the document stays marked as in progress. *)
Lemma empty_list_invocation_one_update :
  let run :=
    evaluateMockInterview Samples.post_good Samples.parse (fun _ => true)
      (Samples.never string string) (fun _ _ _ => false)
      (Samples.request_from (Some "alice") "doc1")
      (Samples.w_with (Samples.stored (Val []))) in
  fst run = Throw (HttpsError internal "Error evaluating interview") /\
  filter is_store_op (trace (snd run)) =
    [EvGet archives "doc1";
     EvUpdate archives "doc1"
       {| upd_interviewQuestions := None;
          upd_analysed := Some false;
          upd_evaluationInProgress := Some true |}] /\
  evaluationInProgress <$> (store (snd run) !! (archives, "doc1")) = Some (Val true).
Proof. vm_compute. repeat split; reflexivity. Qed.

(** C6. For an authenticated caller and a [docId] with no stored document,
    the invocation fails with the [internal] error: the [not-found] error
    is thrown inside the [try] block, caught by its own [catch], logged,
    and replaced. *)
Theorem missing_document_reported_internal
    (post : nat -> string -> ChatRequest -> HttpOutcome)
    (parse : jsval -> option jsval)
    (send : Notification -> bool)
    (getf : string -> string -> bool)
    (updf : string -> string -> UpdateData -> bool)
    (request : CallableRequest) (caller : AuthData) (w : World) :
  auth request = Some caller ->
  getf archives (docId (data request)) = false ->
  store w !! (archives, docId (data request)) = None ->
  evaluateMockInterview post parse send getf updf request w =
    (Throw (HttpsError internal "Error evaluating interview"),
     extend w
       [EvLogInfo "Starting progress evaluation process" (LogDocId (docId (data request)));
        EvGet archives (docId (data request));
        EvLogInfo "Starting point 2" (LogDocId (docId (data request)));
        EvLogError "Error evaluating interview"
          (LogError (HttpsError not_found "Interview document not found"))]).
Proof.
  intros Hauth Hget Hnone. unfold evaluateMockInterview. rewrite Hauth.
  unfold try_catch, bind, logger_info, logger_error, firestore_get, throw, ret.
  simpl. change ("users/" ++ hard_coded_userId ++ "/archives") with archives.
  rewrite Hget. simpl. rewrite Hnone. simpl.
  unfold extend, emit, push. simpl. by rewrite <- !app_assoc.
Qed.

Lemma missing_document_reported_internal_witness :
  evaluateMockInterview Samples.post_good Samples.parse (fun _ => true)
    (Samples.never string string) (fun _ _ _ => false)
    (Samples.request_from (Some "alice") "nope") Samples.w0 =
    (Throw (HttpsError internal "Error evaluating interview"),
     extend Samples.w0
       [EvLogInfo "Starting progress evaluation process" (LogDocId "nope");
        EvGet archives "nope";
        EvLogInfo "Starting point 2" (LogDocId "nope");
        EvLogError "Error evaluating interview"
          (LogError (HttpsError not_found "Interview document not found"))]).
Proof.
  apply (missing_document_reported_internal Samples.post_good Samples.parse
           (fun _ => true) (Samples.never string string) (fun _ _ _ => false)
           (Samples.request_from (Some "alice") "nope") {| uid := "alice" |} Samples.w0).
  - reflexivity.
  - reflexivity.
  - reflexivity.
Defined.

(** C8. Whether the notification send fails or succeeds changes neither
    what the invocation returns nor the stored documents:
    [sendEvaluationNotification] always returns normally and leaves the
    store alone, and two invocations that differ only in the messaging
    service end with the same result and the same store. *)
Theorem notification_outcome_irrelevant
    (post : nat -> string -> ChatRequest -> HttpOutcome)
    (parse : jsval -> option jsval)
    (send send' : Notification -> bool)
    (getf : string -> string -> bool)
    (updf : string -> string -> UpdateData -> bool)
    (request : CallableRequest) (w : World) :
  (forall userId d w0,
     fst (sendEvaluationNotification send userId d w0) = Ok tt /\
     store (snd (sendEvaluationNotification send userId d w0)) = store w0) /\
  fst (evaluateMockInterview post parse send getf updf request w) =
    fst (evaluateMockInterview post parse send' getf updf request w) /\
  store (snd (evaluateMockInterview post parse send getf updf request w)) =
    store (snd (evaluateMockInterview post parse send' getf updf request w)).
Proof.
  split; [intros userId d w0; by rewrite sendEvaluationNotification_run|].
  unfold evaluateMockInterview.
  destruct (auth request) as [caller|]; [|done].
  unfold try_catch, bind, logger_info, logger_error, firestore_get,
    firestore_update, throw, ret.
  simpl. destruct (getf _ _); simpl; [done|].
  destruct (store w !! _) as [stored|] eqn:Hget; simpl; [|done].
  destruct (updf _ _ started); simpl; [done|].
  rewrite Hget; simpl.
  destruct (evaluateInterviewAnswers _ _ _ _) as [[out|err] w2]; simpl; [|done].
  destruct (updf _ _ (finished out)); simpl; [done|].
  destruct (store w2 !! _) as [stored2|]; simpl; [|done].
  by rewrite !sendEvaluationNotification_run.
Qed.

(** ** Which document an invocation touches *)

Section Confinement.

Variable key : string * string.

Lemma confined_step_refl w : confined_step key w w.
Proof. split; [|done]. exists []. by rewrite app_nil_r. Qed.

Lemma confined_step_trans w1 w2 w3 :
  confined_step key w1 w2 -> confined_step key w2 w3 -> confined_step key w1 w3.
Proof.
  intros [(e1 & Ht1 & Hf1) Hs1] [(e2 & Ht2 & Hf2) Hs2]. split.
  - exists (e1 ++ e2)%list. split.
    + by rewrite Ht2, Ht1, app_assoc.
    + by apply Forall_app.
  - intros k Hk. by rewrite Hs2, Hs1.
Qed.

Lemma confined_step_emit e w :
  targets key e = true -> confined_step key w (emit e w).
Proof.
  intros He. split; [|done]. exists [e]. split; [done|]. by constructor.
Qed.

Lemma targets_of_no_store_op evs :
  filter is_store_op evs = [] -> Forall (fun e => targets key e = true) evs.
Proof.
  induction evs as [|e evs IH]; [by constructor|].
  rewrite filter_cons. destruct e; simpl; try done; intros H; constructor; auto.
Qed.

Lemma confined_step_extend w evs :
  filter is_store_op evs = [] -> confined_step key w (extend w evs).
Proof.
  intros H. split; [|done]. exists evs. split; [done|].
  by apply targets_of_no_store_op.
Qed.

Lemma confined_ret {A} (a : A) : confined key (ret a).
Proof. intros w. apply confined_step_refl. Qed.

Lemma confined_throw {A} e : confined key (@throw A e).
Proof. intros w. apply confined_step_refl. Qed.

Lemma confined_bind {A B} (m : M A) (k : A -> M B) :
  confined key m -> (forall a, confined key (k a)) -> confined key (bind m k).
Proof.
  intros Hm Hk w. unfold bind. specialize (Hm w).
  destruct (m w) as [[a|e] w1]; simpl in *; [|done].
  eapply confined_step_trans; [exact Hm|]. apply Hk.
Qed.

Lemma confined_try_catch {A} (m : M A) (h : JsError -> M A) :
  confined key m -> (forall e, confined key (h e)) -> confined key (try_catch m h).
Proof.
  intros Hm Hh w. unfold try_catch. specialize (Hm w).
  destruct (m w) as [[a|e] w1]; simpl in *; [done|].
  eapply confined_step_trans; [exact Hm|]. apply Hh.
Qed.

Lemma confined_logger_info text d : confined key (logger_info text d).
Proof. intros w. by apply confined_step_emit. Qed.

Lemma confined_logger_error text d : confined key (logger_error text d).
Proof. intros w. by apply confined_step_emit. Qed.

Lemma confined_firestore_get getf c d :
  (c, d) = key -> confined key (firestore_get getf c d).
Proof.
  intros Hkey w. unfold firestore_get.
  destruct (getf c d); simpl; apply confined_step_emit; simpl;
    by apply bool_decide_eq_true.
Qed.

Lemma confined_firestore_update updf c d u :
  (c, d) = key -> confined key (firestore_update updf c d u).
Proof.
  intros Hkey w. unfold firestore_update.
  assert (targets key (EvUpdate c d u) = true) as Ht
    by (simpl; by apply bool_decide_eq_true).
  destruct (updf c d u); simpl; [by apply confined_step_emit|].
  destruct (store w !! (c, d)) as [stored|]; simpl; [|by apply confined_step_emit].
  split; simpl.
  - exists [EvUpdate c d u]. split; [done|]. by constructor.
  - intros k Hk. rewrite lookup_insert_ne; [done|]. by rewrite Hkey.
Qed.

Lemma confined_evaluateInterviewAnswers post parse doc :
  confined key (evaluateInterviewAnswers post parse doc).
Proof.
  intros w.
  destruct (evaluateInterviewAnswers post parse doc w) as [r w'] eqn:Hev.
  destruct (evaluateInterviewAnswers_extends _ _ _ _ _ _ Hev) as (evs & -> & Hevs).
  by apply confined_step_extend.
Qed.

Lemma confined_sendEvaluationNotification send userId d :
  confined key (sendEvaluationNotification send userId d).
Proof.
  intros w. rewrite sendEvaluationNotification_run. simpl.
  apply confined_step_extend. unfold notification_events.
  by destruct (send _).
Qed.

End Confinement.

Lemma confined_evaluateMockInterview post parse send getf updf request :
  confined (archives, docId (data request))
    (evaluateMockInterview post parse send getf updf request).
Proof.
  unfold evaluateMockInterview.
  destruct (auth request) as [caller|]; [|apply confined_throw].
  change ("users/" ++ hard_coded_userId ++ "/archives") with archives.
  apply confined_try_catch.
  - apply confined_bind; [apply confined_logger_info|intros _].
    apply confined_bind; [by apply confined_firestore_get|intros [stored|]].
    + apply confined_bind; [apply confined_logger_info|intros _].
      apply confined_bind; [by apply confined_firestore_update|intros _].
      apply confined_bind; [apply confined_logger_info|intros _].
      apply confined_bind; [apply confined_evaluateInterviewAnswers|intros out].
      apply confined_bind; [by apply confined_firestore_update|intros _].
      apply confined_bind; [apply confined_logger_info|intros _].
      apply confined_bind; [apply confined_sendEvaluationNotification|intros _].
      apply confined_ret.
    + apply confined_bind; [apply confined_logger_info|intros _].
      apply confined_throw.
  - intros e. apply confined_bind; [apply confined_logger_error|intros _].
    apply confined_throw.
Qed.

(** C10. The callable builds the store path from the constant user id
    [EmlxiPsnXqT38FXVm4TCRywzvQq2]: two authenticated callers invoking with
    the same [docId] get the same run (same result, same store, same
    requests), and every store request of that run is for that document
    under [users/EmlxiPsnXqT38FXVm4TCRywzvQq2/archives], the only one that
    can change. The caller's identity matters only by being present. *)
Theorem caller_identity_only_by_presence
    (post : nat -> string -> ChatRequest -> HttpOutcome)
    (parse : jsval -> option jsval)
    (send : Notification -> bool)
    (getf : string -> string -> bool)
    (updf : string -> string -> UpdateData -> bool)
    (caller1 caller2 : AuthData) (d : FunctionData) (w : World) :
  evaluateMockInterview post parse send getf updf
    {| auth := Some caller1; data := d |} w =
  evaluateMockInterview post parse send getf updf
    {| auth := Some caller2; data := d |} w /\
  confined_step ("users/EmlxiPsnXqT38FXVm4TCRywzvQq2/archives", docId d) w
    (snd (evaluateMockInterview post parse send getf updf
            {| auth := Some caller1; data := d |} w)).
Proof.
  split; [reflexivity|].
  apply (confined_evaluateMockInterview post parse send getf updf
           {| auth := Some caller1; data := d |}).
Qed.

(** ** More on the evaluator *)

Lemma posts_of_loop_events post parse doc qs : forall n,
  filter is_post (loop_events post parse doc n qs) =
    map (fun q => EvPost deepseek_url (chat_request doc q))
        (filter (fun q => truthy (candidateAnswer q)) qs).
Proof.
  induction qs as [|q rest IH]; intros n; simpl; [done|].
  rewrite filter_app, IH, filter_cons. unfold iteration_events.
  destruct (truthy (candidateAnswer q)); simpl; [|done].
  by destruct (read_evaluation parse _).
Qed.

(** X1. The evaluator posts once for each question with a non-empty answer,
    in the order of the questions, each time to the chat-completion URL
    with a request of two messages, model "deepseek-chat" and response
    format "json_object": the system message names the domain (or
    "technology") and the rubric, the user message carries the question,
    the answer, the difficulty, the topic and the comma-joined keywords. *)
Theorem evaluator_posts_in_order
    (post : nat -> string -> ChatRequest -> HttpOutcome)
    (parse : jsval -> option jsval)
    (doc : InterviewDocModel) (qs : list InterviewQuestion) (w : World) :
  interviewQuestions doc = Val qs ->
  qs <> [] ->
  let lf := String (Ascii.ascii_of_nat 10) EmptyString in
  let quote := String (Ascii.ascii_of_nat 34) EmptyString in
  let persona :=
    match domain doc with
    | Val d => if String.eqb d EmptyString then "technology" else d
    | _ => "technology"
    end in
  exists out evs,
    evaluateInterviewAnswers post parse doc w = (Ok out, extend w evs) /\
    filter is_post evs =
      map (fun q =>
             EvPost "https://api.deepseek.com/chat/completions"
               {| messages :=
                    [ {| role := "system";
                         content :=
                           "You are an expert technical interviewer for " ++
                           persona ++ " positions." ++ lf ++
                           "Evaluate the candidate's answer to the interview question." ++ lf ++
                           "Consider technical accuracy, clarity, completeness." ++ lf ++
                           "Score from 0-5 and provide brief, specific feedback." ++ lf ++
                           "Format as JSON: {" ++ quote ++ "score" ++ quote ++ ": number, " ++
                           quote ++ "explanation" ++ quote ++ ": " ++
                           quote ++ "string" ++ quote ++ "}" |};
                      {| role := "user";
                         content :=
                           "Question: " ++ question q ++ lf ++ lf ++
                           "Candidate's Answer: " ++ match candidateAnswer q with
                                       | Val a => a
                                       | Null => "null"
                                       | Missing => "undefined"
                                       end ++ lf ++ lf ++
                           "Difficulty: " ++ difficulty q ++ lf ++
                           "Topics: " ++ topic q ++ lf ++
                           "Keywords: " ++ String.concat ", " (keywords q) |} ];
                  model := "deepseek-chat";
                  response_format := "json_object" |})
          (filter (fun q => truthy (candidateAnswer q)) qs).
Proof.
  intros Hqs Hne lf quote persona. eexists _, _.
  split; [by apply evaluateInterviewAnswers_run|].
  rewrite posts_of_loop_events. unfold chat_request, build_messages,
    system_prompt, user_prompt, or_else, to_text, join, nl, dq, chr,
    deepseek_url.
  subst lf quote persona.
  apply map_ext. intros q.
  destruct (domain doc) as [| |d]; destruct (candidateAnswer q) as [| |a];
    simpl; try done; by destruct (String.eqb d EmptyString).
Qed.

Lemma evaluator_posts_in_order_witness :
  let lf := String (Ascii.ascii_of_nat 10) EmptyString in
  let quote := String (Ascii.ascii_of_nat 34) EmptyString in
  exists out evs,
    evaluateInterviewAnswers Samples.post_good Samples.parse
      (Samples.doc_of (Val [PostSamples.q_stack; Samples.q_null; Samples.q_hash]))
      Samples.w0 = (Ok out, extend Samples.w0 evs) /\
    filter is_post evs =
      [ EvPost "https://api.deepseek.com/chat/completions"
          {| messages :=
               [ {| role := "system";
                    content :=
                      "You are an expert technical interviewer for " ++
                      "technology" ++ " positions." ++ lf ++
                      "Evaluate the candidate's answer to the interview question." ++ lf ++
                      "Consider technical accuracy, clarity, completeness." ++ lf ++
                      "Score from 0-5 and provide brief, specific feedback." ++ lf ++
                      "Format as JSON: {" ++ quote ++ "score" ++ quote ++ ": number, " ++
                      quote ++ "explanation" ++ quote ++ ": " ++
                      quote ++ "string" ++ quote ++ "}" |};
                 {| role := "user";
                    content :=
                      "Question: " ++ "What is a stack?" ++ lf ++ lf ++
                      "Candidate's Answer: " ++ "Last in, first out" ++ lf ++ lf ++
                      "Difficulty: " ++ "easy" ++ lf ++
                      "Topics: " ++ "data structures" ++ lf ++
                      "Keywords: " ++ "stack" |} ];
             model := "deepseek-chat";
             response_format := "json_object" |};
        EvPost "https://api.deepseek.com/chat/completions"
          {| messages :=
               [ {| role := "system";
                    content :=
                      "You are an expert technical interviewer for " ++
                      "technology" ++ " positions." ++ lf ++
                      "Evaluate the candidate's answer to the interview question." ++ lf ++
                      "Consider technical accuracy, clarity, completeness." ++ lf ++
                      "Score from 0-5 and provide brief, specific feedback." ++ lf ++
                      "Format as JSON: {" ++ quote ++ "score" ++ quote ++ ": number, " ++
                      quote ++ "explanation" ++ quote ++ ": " ++
                      quote ++ "string" ++ quote ++ "}" |};
                 {| role := "user";
                    content :=
                      "Question: " ++ "What is a hash map?" ++ lf ++ lf ++
                      "Candidate's Answer: " ++ "A key-value store" ++ lf ++ lf ++
                      "Difficulty: " ++ "easy" ++ lf ++
                      "Topics: " ++ "data structures" ++ lf ++
                      "Keywords: " ++ "hash, map" |} ];
             model := "deepseek-chat";
             response_format := "json_object" |} ].
Proof.
  intros lf quote.
  destruct (evaluator_posts_in_order Samples.post_good Samples.parse
              (Samples.doc_of (Val [PostSamples.q_stack; Samples.q_null; Samples.q_hash]))
              [PostSamples.q_stack; Samples.q_null; Samples.q_hash] Samples.w0
              eq_refl ltac:(discriminate)) as (out & evs & Hrun & Hposts).
  exists out, evs. split; [exact Hrun|]. exact Hposts.
Defined.

Lemma evaluator_events_loop post parse doc qs : forall n,
  Forall (fun e => evaluator_event e = true) (loop_events post parse doc n qs).
Proof.
  induction qs as [|q rest IH]; intros n; simpl; [by constructor|].
  apply Forall_app. split; [|by apply IH].
  unfold iteration_events.
  destruct (negb (truthy (candidateAnswer q))); [by constructor|].
  destruct (read_evaluation parse _); repeat constructor.
Qed.

(** Every request the evaluator issues is one of its own. *)
Lemma evaluator_events post parse doc w :
  exists evs,
    snd (evaluateInterviewAnswers post parse doc w) = extend w evs /\
    Forall (fun e => evaluator_event e = true) evs.
Proof.
  unfold evaluateInterviewAnswers, throw.
  destruct (interviewQuestions doc) as [| |qs]; simpl;
    try (exists []; by rewrite extend_nil).
  destruct qs as [|q rest]; cbn [length Nat.eqb];
    [exists []; by rewrite extend_nil|].
  rewrite for_of_run. eexists. split; [done|].
  apply (evaluator_events_loop post parse doc (q :: rest)).
Qed.

Lemma evaluator_event_no_send evs :
  Forall (fun e => evaluator_event e = true) evs -> filter is_send evs = [].
Proof.
  induction 1 as [|e evs He _ IH]; [done|].
  rewrite filter_cons, IH. by destruct e.
Qed.

(** X2. Whatever the document and the answers of the endpoint, the
    evaluator leaves the document store as it is, and the only requests it
    issues are POSTs to the chat-completion URL and the error lines of its
    own [catch]: it reads and writes no document and sends no
    notification. *)
Theorem evaluator_only_posts_and_logs
    (post : nat -> string -> ChatRequest -> HttpOutcome)
    (parse : jsval -> option jsval)
    (doc : InterviewDocModel) (w : World) :
  store (snd (evaluateInterviewAnswers post parse doc w)) = store w /\
  exists evs,
    trace (snd (evaluateInterviewAnswers post parse doc w)) = (trace w ++ evs)%list /\
    Forall (fun e => evaluator_event e = true) evs.
Proof.
  destruct (evaluator_events post parse doc w) as (evs & -> & Hevs).
  split; [done|]. by exists evs.
Qed.

Lemma chat_request_same doc doc' q q' :
  or_else (domain doc) "technology" = or_else (domain doc') "technology" ->
  same_inputs q q' ->
  chat_request doc q = chat_request doc' q'.
Proof.
  intros Hd (H1 & H2 & H3 & H4 & H5).
  unfold chat_request, build_messages, system_prompt, user_prompt.
  by rewrite Hd, H1, H2, H3, H4, H5.
Qed.

Lemma with_evaluation_same q q' s e :
  same_inputs q q' -> with_evaluation q s e = with_evaluation q' s e.
Proof.
  intros (H1 & H2 & H3 & H4 & H5). unfold with_evaluation.
  by rewrite H1, H2, H3, H4, H5.
Qed.

Lemma same_inputs_loop post parse doc doc' qs qs' :
  or_else (domain doc) "technology" = or_else (domain doc') "technology" ->
  Forall2 same_inputs qs qs' ->
  forall n,
    evaluated_from post parse doc n qs = evaluated_from post parse doc' n qs' /\
    loop_events post parse doc n qs = loop_events post parse doc' n qs'.
Proof.
  intros Hd Hqs. induction Hqs as [|q q' rest rest' Hq Hrest IH]; intros n; [done|].
  pose proof (chat_request_same doc doc' q q' Hd Hq) as Hchat.
  assert (candidateAnswer q = candidateAnswer q') as Hans by apply Hq.
  simpl. unfold evaluated_item, iteration_events, next_call, outcome_at,
    no_answer, error_placeholder.
  rewrite Hchat, Hans.
  destruct (IH (if truthy (candidateAnswer q') then S n else n)) as [-> ->].
  destruct (truthy (candidateAnswer q')); simpl.
  - destruct (read_evaluation parse _) as [[s e]|err];
      by rewrite (with_evaluation_same q q' _ _ Hq).
  - by rewrite (with_evaluation_same q q' _ _ Hq).
Qed.

Lemma same_inputs_run post parse doc doc' qs qs' w :
  interviewQuestions doc = Val qs ->
  interviewQuestions doc' = Val qs' ->
  or_else (domain doc) "technology" = or_else (domain doc') "technology" ->
  Forall2 same_inputs qs qs' ->
  evaluateInterviewAnswers post parse doc w =
    evaluateInterviewAnswers post parse doc' w.
Proof.
  intros Hqs Hqs' Hd Hsame.
  destruct Hsame as [|q q' rest rest' Hq Hrest].
  - unfold evaluateInterviewAnswers. by rewrite Hqs, Hqs'.
  - rewrite (evaluateInterviewAnswers_run post parse doc (q :: rest)); [|done..].
    rewrite (evaluateInterviewAnswers_run post parse doc' (q' :: rest')); [|done..].
    destruct (same_inputs_loop post parse doc doc' (q :: rest) (q' :: rest') Hd
                ltac:(by constructor) (posts (trace w))) as [-> ->].
    done.
Qed.

(** X3. The evaluator reads only the document's [domain] (through
    [domain || "technology"]) and, of each question, [difficulty],
    [keywords], [question], [topic] and [candidateAnswer]. Two documents
    that agree on these give the same run, whatever their other fields and
    the [score] and [explanation] already stored in their questions. *)
Theorem evaluator_reads_only_prompt_fields
    (post : nat -> string -> ChatRequest -> HttpOutcome)
    (parse : jsval -> option jsval)
    (doc doc' : InterviewDocModel) (qs qs' : list InterviewQuestion) (w : World) :
  interviewQuestions doc = Val qs ->
  interviewQuestions doc' = Val qs' ->
  or_else (domain doc) "technology" = or_else (domain doc') "technology" ->
  Forall2 same_inputs qs qs' ->
  evaluateInterviewAnswers post parse doc w =
    evaluateInterviewAnswers post parse doc' w.
Proof. apply same_inputs_run. Qed.

Lemma evaluator_reads_only_prompt_fields_witness :
  evaluateInterviewAnswers Samples.post_flaky Samples.parse
    (Samples.doc_of (Val [Samples.q_null; Samples.q_hash])) Samples.w0 =
  evaluateInterviewAnswers Samples.post_flaky Samples.parse
    (Samples.doc_of (Val [with_evaluation Samples.q_null (JNum 5) JNull;
                          with_evaluation Samples.q_hash JUndefined (JStr "old")]))
    Samples.w0.
Proof.
  apply (evaluator_reads_only_prompt_fields Samples.post_flaky Samples.parse
           (Samples.doc_of (Val [Samples.q_null; Samples.q_hash]))
           (Samples.doc_of (Val [with_evaluation Samples.q_null (JNum 5) JNull;
                                 with_evaluation Samples.q_hash JUndefined (JStr "old")]))
           [Samples.q_null; Samples.q_hash]
           [with_evaluation Samples.q_null (JNum 5) JNull;
            with_evaluation Samples.q_hash JUndefined (JStr "old")]
           Samples.w0).
  - reflexivity.
  - reflexivity.
  - reflexivity.
  - repeat constructor.
Defined.

Lemma same_inputs_refl q : same_inputs q q.
Proof. by repeat split. Qed.

Lemma same_inputs_evaluated post parse doc qs : forall n,
  Forall2 same_inputs qs (evaluated_from post parse doc n qs).
Proof.
  induction qs as [|q rest IH]; intros n; simpl; constructor; [|by apply IH].
  destruct (evaluated_item_shape post parse doc n q) as (s & e & ->).
  by repeat split.
Qed.

(** X4. Evaluating an already evaluated document again gives the same
    list, provided the endpoint answers the same calls in the same way:
    the scores and explanations written by the first run are not read by
    the second. *)
Theorem evaluator_idempotent
    (post : nat -> string -> ChatRequest -> HttpOutcome)
    (parse : jsval -> option jsval)
    (doc doc' : InterviewDocModel) (qs out : list InterviewQuestion)
    (w w' : World) :
  interviewQuestions doc = Val qs ->
  evaluateInterviewAnswers post parse doc w = (Ok out, w') ->
  interviewQuestions doc' = Val out ->
  domain doc' = domain doc ->
  evaluateInterviewAnswers post parse doc' w = (Ok out, w').
Proof.
  intros Hqs Hrun Hout Hd.
  assert (qs <> []) as Hne.
  { intros ->. unfold evaluateInterviewAnswers in Hrun. by rewrite Hqs in Hrun. }
  rewrite (evaluateInterviewAnswers_run post parse doc qs w Hqs Hne) in Hrun.
  injection Hrun as <- <-.
  rewrite <- (evaluateInterviewAnswers_run post parse doc qs w Hqs Hne).
  symmetry. eapply same_inputs_run; [done|done| |].
  - by rewrite Hd.
  - apply same_inputs_evaluated.
Qed.

Lemma evaluator_idempotent_witness :
  evaluateInterviewAnswers Samples.post_good Samples.parse
    (Samples.doc_of
       (Val [with_evaluation Samples.q_null (JNum 0) (JStr "No answer provided");
             with_evaluation Samples.q_hash (JNum 4)
               (JStr "Good, could mention collisions")]))
    Samples.w0 =
  (Ok [with_evaluation Samples.q_null (JNum 0) (JStr "No answer provided");
       with_evaluation Samples.q_hash (JNum 4) (JStr "Good, could mention collisions")],
   snd (evaluateInterviewAnswers Samples.post_good Samples.parse
          (Samples.doc_of (Val [Samples.q_null; Samples.q_hash])) Samples.w0)).
Proof.
  apply (evaluator_idempotent Samples.post_good Samples.parse
           (Samples.doc_of (Val [Samples.q_null; Samples.q_hash]))
           (Samples.doc_of
              (Val [with_evaluation Samples.q_null (JNum 0) (JStr "No answer provided");
                    with_evaluation Samples.q_hash (JNum 4)
                      (JStr "Good, could mention collisions")]))
           [Samples.q_null; Samples.q_hash]).
  - reflexivity.
  - reflexivity.
  - reflexivity.
  - reflexivity.
Defined.

(** X5. A document whose [domain] is null, missing or the empty string is
    evaluated exactly as the same document with [domain] "technology":
    the same requests are posted and the same list is returned. *)
Theorem falsy_domain_is_technology
    (post : nat -> string -> ChatRequest -> HttpOutcome)
    (parse : jsval -> option jsval)
    (doc doc' : InterviewDocModel) (w : World) :
  domain doc = Null \/ domain doc = Missing \/ domain doc = Val EmptyString ->
  domain doc' = Val "technology" ->
  interviewQuestions doc' = interviewQuestions doc ->
  evaluateInterviewAnswers post parse doc w =
    evaluateInterviewAnswers post parse doc' w.
Proof.
  intros Hfalsy Htech Hsame.
  assert (or_else (domain doc) "technology" = or_else (domain doc') "technology") as Hd.
  { rewrite Htech. by destruct Hfalsy as [-> | [-> | ->]]. }
  destruct (interviewQuestions doc) as [| |qs] eqn:Hqs.
  - unfold evaluateInterviewAnswers. by rewrite Hqs, Hsame.
  - unfold evaluateInterviewAnswers. by rewrite Hqs, Hsame.
  - apply (same_inputs_run post parse doc doc' qs qs); try done.
    clear. induction qs; constructor; [apply same_inputs_refl|done].
Qed.

Lemma falsy_domain_is_technology_witness :
  evaluateInterviewAnswers Samples.post_good Samples.parse
    (MoreSamples.doc_in (Val EmptyString) (Val [Samples.q_hash])) Samples.w0 =
  evaluateInterviewAnswers Samples.post_good Samples.parse
    (MoreSamples.doc_in (Val "technology") (Val [Samples.q_hash])) Samples.w0.
Proof.
  apply (falsy_domain_is_technology Samples.post_good Samples.parse
           (MoreSamples.doc_in (Val EmptyString) (Val [Samples.q_hash]))
           (MoreSamples.doc_in (Val "technology") (Val [Samples.q_hash])) Samples.w0).
  - right. right. reflexivity.
  - reflexivity.
  - reflexivity.
Defined.

Lemma answered_app qs1 qs2 : answered (qs1 ++ qs2) = answered qs1 + answered qs2.
Proof. unfold answered. by rewrite filter_app, length_app. Qed.

Lemma evaluated_from_app post parse doc qs1 qs2 : forall n,
  evaluated_from post parse doc n (qs1 ++ qs2) =
    (evaluated_from post parse doc n qs1 ++
     evaluated_from post parse doc (n + answered qs1) qs2)%list.
Proof.
  induction qs1 as [|q rest IH]; intros n; simpl.
  - unfold answered. simpl. by rewrite Nat.add_0_r.
  - rewrite IH, answered_cons. do 3 f_equal. unfold next_call.
    destruct (truthy (candidateAnswer q)); lia.
Qed.

Lemma loop_events_app post parse doc qs1 qs2 : forall n,
  loop_events post parse doc n (qs1 ++ qs2) =
    (loop_events post parse doc n qs1 ++
     loop_events post parse doc (n + answered qs1) qs2)%list.
Proof.
  induction qs1 as [|q rest IH]; intros n; simpl.
  - unfold answered. simpl. by rewrite Nat.add_0_r.
  - rewrite IH, answered_cons, <- app_assoc. do 3 f_equal. unfold next_call.
    destruct (truthy (candidateAnswer q)); lia.
Qed.

Lemma same_domain_loop post parse doc doc' qs n :
  domain doc' = domain doc ->
  evaluated_from post parse doc' n qs = evaluated_from post parse doc n qs /\
  loop_events post parse doc' n qs = loop_events post parse doc n qs.
Proof.
  intros Hd. apply same_inputs_loop; [by rewrite Hd|].
  clear. induction qs; constructor; [apply same_inputs_refl|done].
Qed.

(** X17. A batch can be split: evaluating the first part of a question
    list and then, from the world this leaves, the rest, gives the two
    halves of what evaluating the whole list gives, and leaves the same
    world. Each question is evaluated on its own; only the numbering of
    the calls runs on. *)
Theorem evaluator_splits
    (post : nat -> string -> ChatRequest -> HttpOutcome)
    (parse : jsval -> option jsval)
    (doc doc1 doc2 : InterviewDocModel) (qs1 qs2 out1 out2 : list InterviewQuestion)
    (w w1 w2 : World) :
  interviewQuestions doc = Val (qs1 ++ qs2)%list ->
  interviewQuestions doc1 = Val qs1 ->
  interviewQuestions doc2 = Val qs2 ->
  domain doc1 = domain doc ->
  domain doc2 = domain doc ->
  evaluateInterviewAnswers post parse doc1 w = (Ok out1, w1) ->
  evaluateInterviewAnswers post parse doc2 w1 = (Ok out2, w2) ->
  evaluateInterviewAnswers post parse doc w = (Ok (out1 ++ out2)%list, w2).
Proof.
  intros Hqs Hqs1 Hqs2 Hd1 Hd2 Hrun1 Hrun2.
  assert (qs1 <> []) as Hne1.
  { intros ->. unfold evaluateInterviewAnswers in Hrun1. by rewrite Hqs1 in Hrun1. }
  assert (qs2 <> []) as Hne2.
  { intros ->. unfold evaluateInterviewAnswers in Hrun2. by rewrite Hqs2 in Hrun2. }
  rewrite (evaluateInterviewAnswers_run _ _ _ qs1 w Hqs1 Hne1) in Hrun1.
  injection Hrun1 as <- <-.
  rewrite (evaluateInterviewAnswers_run _ _ _ qs2 _ Hqs2 Hne2) in Hrun2.
  injection Hrun2 as <- <-.
  rewrite (evaluateInterviewAnswers_run _ _ _ (qs1 ++ qs2)%list w Hqs);
    [|by destruct qs1].
  rewrite evaluated_from_app, loop_events_app, extend_extend. simpl.
  rewrite posts_app, posts_loop_events.
  destruct (same_domain_loop post parse doc doc1 qs1 (posts (trace w)) Hd1) as [-> ->].
  destruct (same_domain_loop post parse doc doc2 qs2
              (posts (trace w) + answered qs1) Hd2) as [-> ->].
  done.
Qed.

Lemma evaluator_splits_witness :
  evaluateInterviewAnswers Samples.post_flaky Samples.parse
    (Samples.doc_of (Val ([Samples.q_hash; Samples.q_null] ++ [Samples.q_hash])%list))
    Samples.w0 =
    (Ok ([with_evaluation Samples.q_hash (JNum 0)
            (JStr "Error evaluating answer. Please try again later.");
          with_evaluation Samples.q_null (JNum 0) (JStr "No answer provided")] ++
         [with_evaluation Samples.q_hash (JNum 4)
            (JStr "Good, could mention collisions")])%list,
     snd (evaluateInterviewAnswers Samples.post_flaky Samples.parse
            (Samples.doc_of (Val [Samples.q_hash]))
            (snd (evaluateInterviewAnswers Samples.post_flaky Samples.parse
                    (Samples.doc_of (Val [Samples.q_hash; Samples.q_null]))
                    Samples.w0)))).
Proof.
  apply (evaluator_splits Samples.post_flaky Samples.parse
           (Samples.doc_of (Val ([Samples.q_hash; Samples.q_null] ++ [Samples.q_hash])%list))
           (Samples.doc_of (Val [Samples.q_hash; Samples.q_null]))
           (Samples.doc_of (Val [Samples.q_hash]))
           [Samples.q_hash; Samples.q_null] [Samples.q_hash] _ _
           Samples.w0
           (snd (evaluateInterviewAnswers Samples.post_flaky Samples.parse
                   (Samples.doc_of (Val [Samples.q_hash; Samples.q_null]))
                   Samples.w0))).
  - reflexivity.
  - reflexivity.
  - reflexivity.
  - reflexivity.
  - reflexivity.
  - vm_compute. reflexivity.
  - vm_compute. reflexivity.
Defined.

(** ** More on the callable *)

(** The second update overrides everything the first one wrote. *)
Lemma apply_update_finished_started out d :
  apply_update (finished out) (apply_update started d) = apply_update (finished out) d.
Proof. reflexivity. Qed.

(** The run of an authenticated invocation, case by case. *)
Lemma evaluateMockInterview_authenticated post parse send getf updf request caller w :
  auth request = Some caller ->
  evaluateMockInterview post parse send getf updf request w =
    let d := docId (data request) in
    if getf archives d then
      (Throw (HttpsError internal "Error evaluating interview"),
       extend w [EvLogInfo "Starting progress evaluation process" (LogDocId d);
                 EvGet archives d; caught FirestoreError])
    else
      match store w !! (archives, d) with
      | None =>
          (Throw (HttpsError internal "Error evaluating interview"),
           extend w [EvLogInfo "Starting progress evaluation process" (LogDocId d);
                     EvGet archives d;
                     EvLogInfo "Starting point 2" (LogDocId d);
                     caught (HttpsError not_found "Interview document not found")])
      | Some stored =>
          if updf archives d started then
            (Throw (HttpsError internal "Error evaluating interview"),
             extend w [EvLogInfo "Starting progress evaluation process" (LogDocId d);
                       EvGet archives d;
                       EvLogInfo "Starting point 2" (LogDocId d);
                       EvUpdate archives d started;
                       caught FirestoreError])
          else
            let w1 := {| store := <[(archives, d) := apply_update started stored]> (store w);
                         trace := (trace w ++ opening_events d)%list |} in
            match evaluateInterviewAnswers post parse (fields stored) w1 with
            | (Throw err, w2) =>
                (Throw (HttpsError internal "Error evaluating interview"),
                 extend w2 [caught err])
            | (Ok out, w2) =>
                if updf archives d (finished out) then
                  (Throw (HttpsError internal "Error evaluating interview"),
                   extend w2 [EvUpdate archives d (finished out); caught FirestoreError])
                else
                  (Ok {| success := true; result_docId := d |},
                   {| store := <[(archives, d) := apply_update (finished out) stored]>
                                 (store w);
                      trace := (trace w2 ++ closing_events send d out)%list |})
            end
      end.
Proof.
  intros Hauth. unfold evaluateMockInterview. rewrite Hauth.
  unfold try_catch, bind, logger_info, logger_error, firestore_get,
    firestore_update, throw, ret.
  simpl. change ("users/" ++ hard_coded_userId ++ "/archives") with archives.
  destruct (getf _ _); simpl.
  { unfold extend, emit, push; simpl. by rewrite <- !app_assoc. }
  destruct (store w !! _) as [stored|] eqn:Hget; simpl.
  2:{ unfold extend, emit, push; simpl. by rewrite <- !app_assoc. }
  destruct (updf _ _ started); simpl.
  { unfold extend, emit, push; simpl. by rewrite <- !app_assoc. }
  rewrite Hget; simpl.
  unfold emit, push, opening_events; simpl. rewrite <- !app_assoc; simpl.
  destruct (evaluateInterviewAnswers _ _ _ _) as [[out|err] w2] eqn:Hev; simpl; [|done].
  destruct (evaluateInterviewAnswers_extends _ _ _ _ _ _ Hev) as (during & -> & Hduring).
  simpl. rewrite lookup_insert_eq.
  destruct (updf _ _ (finished out)); simpl.
  { unfold extend, push; simpl. by rewrite <- !app_assoc. }
  rewrite sendEvaluationNotification_run. simpl.
  rewrite insert_insert_eq, apply_update_finished_started.
  unfold extend, closing_events, push. simpl. do 2 f_equal.
  by rewrite <- !app_assoc.
Qed.

Lemma posts_opening_events d : posts (opening_events d) = 0.
Proof. reflexivity. Qed.

(** The list the evaluator returns depends on the world only through the
    number of calls already made. *)
Lemma evaluator_result_posts post parse doc w1 w2 :
  posts (trace w1) = posts (trace w2) ->
  fst (evaluateInterviewAnswers post parse doc w1) =
    fst (evaluateInterviewAnswers post parse doc w2).
Proof.
  intros Hp. unfold evaluateInterviewAnswers, throw.
  destruct (interviewQuestions doc) as [| |qs]; [done..|].
  destruct qs as [|q rest]; cbn [length Nat.eqb]; [done|].
  rewrite !for_of_run. simpl. by rewrite Hp.
Qed.

(** X6. The callable surfaces two errors only. Without a caller identity
    it throws [unauthenticated] and has issued nothing, not even a log
    line; with one, every failure, whatever its cause, reaches the caller
    as [internal] with the message "Error evaluating interview". *)
Theorem callable_error_codes
    (post : nat -> string -> ChatRequest -> HttpOutcome)
    (parse : jsval -> option jsval)
    (send : Notification -> bool)
    (getf : string -> string -> bool)
    (updf : string -> string -> UpdateData -> bool)
    (request : CallableRequest) (w : World) (e : JsError) :
  fst (evaluateMockInterview post parse send getf updf request w) = Throw e ->
  (auth request = None /\
   e = HttpsError unauthenticated "The function must be called while authenticated." /\
   snd (evaluateMockInterview post parse send getf updf request w) = w) \/
  (auth request <> None /\
   e = HttpsError internal "Error evaluating interview").
Proof.
  destruct (auth request) as [caller|] eqn:Hauth.
  - intros Hthrow. right. split; [done|].
    rewrite (evaluateMockInterview_authenticated _ _ _ _ _ _ caller w Hauth) in Hthrow.
    simpl in Hthrow.
    destruct (getf _ _); [by injection Hthrow|].
    destruct (store w !! _) as [stored|]; [|by injection Hthrow].
    destruct (updf _ _ started); [by injection Hthrow|].
    destruct (evaluateInterviewAnswers _ _ _ _) as [[out|err] w2];
      [|by injection Hthrow].
    destruct (updf _ _ (finished out)); [by injection Hthrow|done].
  - unfold evaluateMockInterview. rewrite Hauth. simpl.
    intros [= <-]. by left.
Qed.

Lemma callable_error_codes_witness :
  (auth MoreSamples.anonymous = None /\
   HttpsError unauthenticated "The function must be called while authenticated."
     = HttpsError unauthenticated "The function must be called while authenticated." /\
   snd (evaluateMockInterview Samples.post_good Samples.parse MoreSamples.delivers
          MoreSamples.accepts_get MoreSamples.accepts_update
          MoreSamples.anonymous MoreSamples.w_two) = MoreSamples.w_two) \/
  (auth MoreSamples.anonymous <> None /\
   HttpsError unauthenticated "The function must be called while authenticated."
     = HttpsError internal "Error evaluating interview").
Proof.
  apply (callable_error_codes Samples.post_good Samples.parse MoreSamples.delivers
           MoreSamples.accepts_get MoreSamples.accepts_update
           MoreSamples.anonymous MoreSamples.w_two).
  reflexivity.
Defined.

(** X7. An authenticated invocation on a stored document with a non-empty
    question list succeeds as soon as the store accepts the read and the
    two updates the invocation issues, whatever the chat-completion
    endpoint and the messaging service do. It returns
    [{success: true, docId}] and leaves, at the document, the stored fields
    with [interviewQuestions] replaced by the list the evaluator returned,
    [analysed] true and [evaluationInProgress] false; no other document
    changes. (What the evaluator returns depends on the world only through
    the number of calls made so far, which the requests before it leave
    as in [w].) *)
Theorem callable_succeeds_when_store_accepts
    (post : nat -> string -> ChatRequest -> HttpOutcome)
    (parse : jsval -> option jsval)
    (send : Notification -> bool)
    (getf : string -> string -> bool)
    (updf : string -> string -> UpdateData -> bool)
    (request : CallableRequest) (caller : AuthData)
    (stored : StoredDoc) (qs : list InterviewQuestion) (w : World) :
  auth request = Some caller ->
  getf archives (docId (data request)) = false ->
  store w !! (archives, docId (data request)) = Some stored ->
  interviewQuestions (fields stored) = Val qs ->
  qs <> [] ->
  updf archives (docId (data request))
    {| upd_interviewQuestions := None;
       upd_analysed := Some false;
       upd_evaluationInProgress := Some true |} = false ->
  (forall out,
     fst (evaluateInterviewAnswers post parse (fields stored) w) = Ok out ->
     updf archives (docId (data request))
       {| upd_interviewQuestions := Some out;
          upd_analysed := Some true;
          upd_evaluationInProgress := Some false |} = false) ->
  exists out,
    fst (evaluateInterviewAnswers post parse (fields stored) w) = Ok out /\
    length out = length qs /\
    fst (evaluateMockInterview post parse send getf updf request w) =
      Ok {| success := true; result_docId := docId (data request) |} /\
    store (snd (evaluateMockInterview post parse send getf updf request w)) =
      <[(archives, docId (data request)) :=
          {| fields :=
               {| title := title (fields stored);
                  questionsCount := questionsCount (fields stored);
                  domain := domain (fields stored);
                  topics := topics (fields stored);
                  doc_difficulty := doc_difficulty (fields stored);
                  jobDescription := jobDescription (fields stored);
                  resume := resume (fields stored);
                  date := date (fields stored);
                  preciseTime := preciseTime (fields stored);
                  analysed := true;
                  evaludationId := evaludationId (fields stored);
                  interviewQuestions := Val out;
                  type := type (fields stored) |};
             evaluationInProgress := Val false |}]> (store w).
Proof.
  intros Hauth Hget Hstored Hqs Hne Hupd1 Hupd2.
  exists (evaluated_from post parse (fields stored) (posts (trace w)) qs).
  assert (fst (evaluateInterviewAnswers post parse (fields stored) w) =
          Ok (evaluated_from post parse (fields stored) (posts (trace w)) qs)) as Hout
    by (by rewrite (evaluateInterviewAnswers_run _ _ _ qs)).
  split; [done|]. split; [by apply length_evaluated_from|].
  specialize (Hupd2 _ Hout).
  rewrite (evaluateMockInterview_authenticated _ _ _ _ _ _ caller w Hauth).
  simpl. unfold started. rewrite Hget, Hstored, Hupd1.
  rewrite (evaluateInterviewAnswers_run _ _ _ qs); [|done..].
  simpl. rewrite posts_app, posts_opening_events, Nat.add_0_r.
  unfold finished. by rewrite Hupd2.
Qed.

Lemma callable_succeeds_when_store_accepts_witness :
  exists out,
    fst (evaluateInterviewAnswers Samples.post_flaky Samples.parse
           (fields (Samples.stored (Val [Samples.q_null; Samples.q_hash])))
           MoreSamples.w_two) = Ok out /\
    length out = 2 /\
    fst (evaluateMockInterview Samples.post_flaky Samples.parse MoreSamples.bounces
           MoreSamples.accepts_get MoreSamples.accepts_update
           MoreSamples.alice MoreSamples.w_two) =
      Ok {| success := true; result_docId := "doc1" |} /\
    store (snd (evaluateMockInterview Samples.post_flaky Samples.parse MoreSamples.bounces
                  MoreSamples.accepts_get MoreSamples.accepts_update
                  MoreSamples.alice MoreSamples.w_two)) =
      <[(archives, "doc1") :=
          {| fields :=
               {| title := title (fields (Samples.stored (Val [Samples.q_null; Samples.q_hash])));
                  questionsCount := questionsCount (fields (Samples.stored (Val [Samples.q_null; Samples.q_hash])));
                  domain := domain (fields (Samples.stored (Val [Samples.q_null; Samples.q_hash])));
                  topics := topics (fields (Samples.stored (Val [Samples.q_null; Samples.q_hash])));
                  doc_difficulty := doc_difficulty (fields (Samples.stored (Val [Samples.q_null; Samples.q_hash])));
                  jobDescription := jobDescription (fields (Samples.stored (Val [Samples.q_null; Samples.q_hash])));
                  resume := resume (fields (Samples.stored (Val [Samples.q_null; Samples.q_hash])));
                  date := date (fields (Samples.stored (Val [Samples.q_null; Samples.q_hash])));
                  preciseTime := preciseTime (fields (Samples.stored (Val [Samples.q_null; Samples.q_hash])));
                  analysed := true;
                  evaludationId := evaludationId (fields (Samples.stored (Val [Samples.q_null; Samples.q_hash])));
                  interviewQuestions := Val out;
                  type := type (fields (Samples.stored (Val [Samples.q_null; Samples.q_hash]))) |};
             evaluationInProgress := Val false |}]> (store MoreSamples.w_two).
Proof.
  apply (callable_succeeds_when_store_accepts Samples.post_flaky Samples.parse
           MoreSamples.bounces MoreSamples.accepts_get MoreSamples.accepts_update
           MoreSamples.alice {| uid := "alice" |}
           (Samples.stored (Val [Samples.q_null; Samples.q_hash]))
           [Samples.q_null; Samples.q_hash] MoreSamples.w_two).
  - reflexivity.
  - reflexivity.
  - vm_compute. reflexivity.
  - reflexivity.
  - discriminate.
  - reflexivity.
  - reflexivity.
Defined.

Lemma evaluator_sends_nothing post parse doc w r w' :
  evaluateInterviewAnswers post parse doc w = (r, w') ->
  exists evs, w' = extend w evs /\ filter is_send evs = [].
Proof.
  intros Hrun. destruct (evaluator_events post parse doc w) as (evs & Hw & Hevs).
  rewrite Hrun in Hw. simpl in Hw. exists evs.
  split; [done|]. by apply evaluator_event_no_send.
Qed.

(** X8. In an invocation that succeeds the notification is sent exactly
    once, as the last request but for its own log line, after the update
    that stores the result: the trace ends with that update, the
    "Starting point 4" line, the send and the line that reports how it
    went, and nothing before them is a send. *)
Theorem notification_follows_final_update
    (post : nat -> string -> ChatRequest -> HttpOutcome)
    (parse : jsval -> option jsval)
    (send : Notification -> bool)
    (getf : string -> string -> bool)
    (updf : string -> string -> UpdateData -> bool)
    (request : CallableRequest) (w : World) (r : CallResult) (w' : World) :
  evaluateMockInterview post parse send getf updf request w = (Ok r, w') ->
  exists before out,
    trace w' =
      (trace w ++ before ++
       [EvUpdate archives (docId (data request)) (finished out);
        EvLogInfo "Starting point 4" (LogDocId (docId (data request)));
        EvSend (evaluation_message (docId (data request)));
        if send (evaluation_message (docId (data request)))
        then EvLogInfo "Notification sent successfully" (LogDocId (docId (data request)))
        else EvLogError "Error sending notification" (LogError MessagingError)])%list /\
    filter is_send before = [].
Proof.
  intros Hrun.
  destruct (auth request) as [caller|] eqn:Hauth;
    [|by unfold evaluateMockInterview in Hrun; rewrite Hauth in Hrun].
  rewrite (evaluateMockInterview_authenticated _ _ _ _ _ _ caller w Hauth) in Hrun.
  simpl in Hrun.
  destruct (getf _ _); [done|].
  destruct (store w !! _) as [stored|]; [|done].
  destruct (updf _ _ started); [done|].
  destruct (evaluateInterviewAnswers _ _ _ _) as [[out|err] w2] eqn:Hev; [|done].
  destruct (updf _ _ (finished out)); [done|].
  injection Hrun as <- <-.
  destruct (evaluator_sends_nothing _ _ _ _ _ _ Hev) as (during & -> & Hduring).
  exists (opening_events (docId (data request)) ++ during)%list, out.
  split.
  - simpl. by rewrite <- !app_assoc.
  - by rewrite filter_app, Hduring.
Qed.

Lemma notification_follows_final_update_witness :
  let run :=
    evaluateMockInterview Samples.post_good Samples.parse MoreSamples.bounces
      MoreSamples.accepts_get MoreSamples.accepts_update
      MoreSamples.alice MoreSamples.w_two in
  exists before out,
    trace (snd run) =
      (trace MoreSamples.w_two ++ before ++
       [EvUpdate archives "doc1" (finished out);
        EvLogInfo "Starting point 4" (LogDocId "doc1");
        EvSend (evaluation_message "doc1");
        if MoreSamples.bounces (evaluation_message "doc1")
        then EvLogInfo "Notification sent successfully" (LogDocId "doc1")
        else EvLogError "Error sending notification" (LogError MessagingError)])%list /\
    filter is_send before = [].
Proof.
  intros run.
  apply (notification_follows_final_update Samples.post_good Samples.parse
           MoreSamples.bounces MoreSamples.accepts_get MoreSamples.accepts_update
           MoreSamples.alice MoreSamples.w_two
           {| success := true; result_docId := "doc1" |} (snd run)).
  vm_compute. reflexivity.
Defined.

(** X9. An invocation that fails sends no notification. *)
Theorem no_notification_on_failure
    (post : nat -> string -> ChatRequest -> HttpOutcome)
    (parse : jsval -> option jsval)
    (send : Notification -> bool)
    (getf : string -> string -> bool)
    (updf : string -> string -> UpdateData -> bool)
    (request : CallableRequest) (w : World) (e : JsError) (w' : World) :
  evaluateMockInterview post parse send getf updf request w = (Throw e, w') ->
  exists evs, trace w' = (trace w ++ evs)%list /\ filter is_send evs = [].
Proof.
  intros Hrun.
  destruct (auth request) as [caller|] eqn:Hauth.
  2:{ unfold evaluateMockInterview in Hrun. rewrite Hauth in Hrun.
      injection Hrun as _ <-. exists []. by rewrite app_nil_r. }
  rewrite (evaluateMockInterview_authenticated _ _ _ _ _ _ caller w Hauth) in Hrun.
  simpl in Hrun.
  destruct (getf _ _); [injection Hrun as _ <-; by eexists|].
  destruct (store w !! _) as [stored|]; [|injection Hrun as _ <-; by eexists].
  destruct (updf _ _ started); [injection Hrun as _ <-; by eexists|].
  destruct (evaluateInterviewAnswers _ _ _ _) as [[out|err] w2] eqn:Hev;
    destruct (evaluator_sends_nothing _ _ _ _ _ _ Hev) as (during & -> & Hduring).
  - destruct (updf _ _ (finished out)); [|done].
    injection Hrun as _ <-. eexists. split.
    + simpl. rewrite <- !app_assoc. reflexivity.
    + by rewrite !filter_app, Hduring.
  - injection Hrun as _ <-. eexists. split.
    + simpl. rewrite <- !app_assoc. reflexivity.
    + by rewrite !filter_app, Hduring.
Qed.

Lemma no_notification_on_failure_witness :
  let run :=
    evaluateMockInterview Samples.post_good Samples.parse MoreSamples.delivers
      MoreSamples.accepts_get MoreSamples.accepts_update
      MoreSamples.alice MoreSamples.w_empty in
  exists evs,
    trace (snd run) = (trace MoreSamples.w_empty ++ evs)%list /\
    filter is_send evs = [].
Proof.
  intros run.
  apply (no_notification_on_failure Samples.post_good Samples.parse
           MoreSamples.delivers MoreSamples.accepts_get MoreSamples.accepts_update
           MoreSamples.alice MoreSamples.w_empty
           (HttpsError internal "Error evaluating interview") (snd run)).
  vm_compute. reflexivity.
Defined.

(** X10. An invocation that fails never stores a result: the store is
    either exactly as before, or it differs in the one document only by
    the first update, which marks it as in progress. *)
Theorem failed_invocation_store
    (post : nat -> string -> ChatRequest -> HttpOutcome)
    (parse : jsval -> option jsval)
    (send : Notification -> bool)
    (getf : string -> string -> bool)
    (updf : string -> string -> UpdateData -> bool)
    (request : CallableRequest) (w : World) (e : JsError) (w' : World) :
  evaluateMockInterview post parse send getf updf request w = (Throw e, w') ->
  store w' = store w \/
  exists stored,
    store w !! (archives, docId (data request)) = Some stored /\
    store w' =
      <[(archives, docId (data request)) :=
          {| fields :=
               {| title := title (fields stored);
                  questionsCount := questionsCount (fields stored);
                  domain := domain (fields stored);
                  topics := topics (fields stored);
                  doc_difficulty := doc_difficulty (fields stored);
                  jobDescription := jobDescription (fields stored);
                  resume := resume (fields stored);
                  date := date (fields stored);
                  preciseTime := preciseTime (fields stored);
                  analysed := false;
                  evaludationId := evaludationId (fields stored);
                  interviewQuestions := interviewQuestions (fields stored);
                  type := type (fields stored) |};
             evaluationInProgress := Val true |}]> (store w).
Proof.
  intros Hrun.
  destruct (auth request) as [caller|] eqn:Hauth.
  2:{ unfold evaluateMockInterview in Hrun. rewrite Hauth in Hrun.
      injection Hrun as _ <-. by left. }
  rewrite (evaluateMockInterview_authenticated _ _ _ _ _ _ caller w Hauth) in Hrun.
  simpl in Hrun.
  destruct (getf _ _); [injection Hrun as _ <-; by left|].
  destruct (store w !! _) as [stored|] eqn:Hstored; [|injection Hrun as _ <-; by left].
  destruct (updf _ _ started); [injection Hrun as _ <-; by left|].
  right. exists stored. split; [done|].
  destruct (evaluateInterviewAnswers _ _ _ _) as [[out|err] w2] eqn:Hev;
    destruct (evaluateInterviewAnswers_extends _ _ _ _ _ _ Hev) as (during & -> & _).
  - destruct (updf _ _ (finished out)); [|done]. by injection Hrun as _ <-.
  - by injection Hrun as _ <-.
Qed.

Lemma failed_invocation_store_witness :
  let run :=
    evaluateMockInterview Samples.post_good Samples.parse MoreSamples.delivers
      MoreSamples.accepts_get MoreSamples.accepts_update
      MoreSamples.alice MoreSamples.w_empty in
  store (snd run) = store MoreSamples.w_empty \/
  exists stored,
    store MoreSamples.w_empty !! (archives, "doc1") = Some stored /\
    store (snd run) =
      <[(archives, "doc1") :=
          {| fields :=
               {| title := title (fields stored);
                  questionsCount := questionsCount (fields stored);
                  domain := domain (fields stored);
                  topics := topics (fields stored);
                  doc_difficulty := doc_difficulty (fields stored);
                  jobDescription := jobDescription (fields stored);
                  resume := resume (fields stored);
                  date := date (fields stored);
                  preciseTime := preciseTime (fields stored);
                  analysed := false;
                  evaludationId := evaludationId (fields stored);
                  interviewQuestions := interviewQuestions (fields stored);
                  type := type (fields stored) |};
             evaluationInProgress := Val true |}]> (store MoreSamples.w_empty).
Proof.
  intros run.
  apply (failed_invocation_store Samples.post_good Samples.parse
           MoreSamples.delivers MoreSamples.accepts_get MoreSamples.accepts_update
           MoreSamples.alice MoreSamples.w_empty
           (HttpsError internal "Error evaluating interview") (snd run)).
  vm_compute. reflexivity.
Defined.

Lemma evaluator_throws_on_empty post parse doc w :
  interviewQuestions doc = Missing \/
  interviewQuestions doc = Null \/
  interviewQuestions doc = Val [] ->
  evaluateInterviewAnswers post parse doc w =
    (Throw (Error "No interview questions found"), w).
Proof. unfold evaluateInterviewAnswers, throw. by intros [-> | [-> | ->]]. Qed.

(** X11. An authenticated invocation on a stored document whose question
    list is null, missing or empty marks the document as in progress
    ([analysed] false, [evaluationInProgress] true, every other field as
    it was), fails in the evaluator with "No interview questions found"
    (logged, and surfaced as [internal]), and stops: no model call, no
    second update, no notification, and the mark is still there when the
    invocation ends. *)
Theorem empty_list_invocation_stays_in_progress
    (post : nat -> string -> ChatRequest -> HttpOutcome)
    (parse : jsval -> option jsval)
    (send : Notification -> bool)
    (getf : string -> string -> bool)
    (updf : string -> string -> UpdateData -> bool)
    (request : CallableRequest) (caller : AuthData)
    (stored : StoredDoc) (w : World) :
  auth request = Some caller ->
  getf archives (docId (data request)) = false ->
  updf archives (docId (data request))
    {| upd_interviewQuestions := None;
       upd_analysed := Some false;
       upd_evaluationInProgress := Some true |} = false ->
  store w !! (archives, docId (data request)) = Some stored ->
  interviewQuestions (fields stored) = Missing \/
  interviewQuestions (fields stored) = Null \/
  interviewQuestions (fields stored) = Val [] ->
  evaluateMockInterview post parse send getf updf request w =
    (Throw (HttpsError internal "Error evaluating interview"),
     {| store :=
          <[(archives, docId (data request)) :=
              {| fields :=
                   {| title := title (fields stored);
                      questionsCount := questionsCount (fields stored);
                      domain := domain (fields stored);
                      topics := topics (fields stored);
                      doc_difficulty := doc_difficulty (fields stored);
                      jobDescription := jobDescription (fields stored);
                      resume := resume (fields stored);
                      date := date (fields stored);
                      preciseTime := preciseTime (fields stored);
                      analysed := false;
                      evaludationId := evaludationId (fields stored);
                      interviewQuestions := interviewQuestions (fields stored);
                      type := type (fields stored) |};
                 evaluationInProgress := Val true |}]> (store w);
        trace :=
          (trace w ++
           [EvLogInfo "Starting progress evaluation process" (LogDocId (docId (data request)));
            EvGet archives (docId (data request));
            EvLogInfo "Starting point 2" (LogDocId (docId (data request)));
            EvUpdate archives (docId (data request))
              {| upd_interviewQuestions := None;
                upd_analysed := Some false;
                upd_evaluationInProgress := Some true |};
            EvLogInfo "Starting point 3" (LogDocId (docId (data request)));
            EvLogError "Error evaluating interview"
              (LogError (Error "No interview questions found"))])%list |}).
Proof.
  intros Hauth Hget Hupd Hstored Hempty.
  rewrite (evaluateMockInterview_authenticated _ _ _ _ _ _ caller w Hauth).
  simpl. unfold started. rewrite Hget, Hstored, Hupd.
  rewrite (evaluator_throws_on_empty _ _ _ _ Hempty).
  unfold extend, opening_events, caught, started; simpl.
  by rewrite <- app_assoc.
Qed.

Lemma empty_list_invocation_stays_in_progress_witness :
  evaluateMockInterview Samples.post_good Samples.parse MoreSamples.delivers
    MoreSamples.accepts_get MoreSamples.accepts_update
    MoreSamples.alice MoreSamples.w_empty =
    (Throw (HttpsError internal "Error evaluating interview"),
     {| store :=
          <[(archives, "doc1") :=
              {| fields :=
                   {| title := title (fields (Samples.stored (Val [])));
                      questionsCount := questionsCount (fields (Samples.stored (Val [])));
                      domain := domain (fields (Samples.stored (Val [])));
                      topics := topics (fields (Samples.stored (Val [])));
                      doc_difficulty := doc_difficulty (fields (Samples.stored (Val [])));
                      jobDescription := jobDescription (fields (Samples.stored (Val [])));
                      resume := resume (fields (Samples.stored (Val [])));
                      date := date (fields (Samples.stored (Val [])));
                      preciseTime := preciseTime (fields (Samples.stored (Val [])));
                      analysed := false;
                      evaludationId := evaludationId (fields (Samples.stored (Val [])));
                      interviewQuestions := interviewQuestions (fields (Samples.stored (Val [])));
                      type := type (fields (Samples.stored (Val []))) |};
                 evaluationInProgress := Val true |}]> (store MoreSamples.w_empty);
        trace :=
          (trace MoreSamples.w_empty ++
           [EvLogInfo "Starting progress evaluation process" (LogDocId "doc1");
            EvGet archives "doc1";
            EvLogInfo "Starting point 2" (LogDocId "doc1");
            EvUpdate archives "doc1"
              {| upd_interviewQuestions := None;
                upd_analysed := Some false;
                upd_evaluationInProgress := Some true |};
            EvLogInfo "Starting point 3" (LogDocId "doc1");
            EvLogError "Error evaluating interview"
              (LogError (Error "No interview questions found"))])%list |}).
Proof.
  apply (empty_list_invocation_stays_in_progress Samples.post_good Samples.parse
           MoreSamples.delivers MoreSamples.accepts_get MoreSamples.accepts_update
           MoreSamples.alice {| uid := "alice" |} (Samples.stored (Val []))
           MoreSamples.w_empty).
  - reflexivity.
  - reflexivity.
  - reflexivity.
  - vm_compute. reflexivity.
  - right. right. reflexivity.
Defined.

(** ** The other two versions *)

Section Quiet.

Lemma quiet_ret {A} (a : A) : quiet (ret a).
Proof. intros w. exists []. by rewrite extend_nil. Qed.

Lemma quiet_throw {A} e : quiet (@throw A e).
Proof. intros w. exists []. by rewrite extend_nil. Qed.

Lemma quiet_lift {A} (r : Result A) : quiet (lift r).
Proof. intros w. exists []. by rewrite extend_nil. Qed.

Lemma quiet_bind {A B} (m : M A) (k : A -> M B) :
  quiet m -> (forall a, quiet (k a)) -> quiet (bind m k).
Proof.
  intros Hm Hk w. unfold bind. destruct (Hm w) as (e1 & Hw1 & Hs1 & Hn1).
  destruct (m w) as [[a|err] w1]; simpl in *; subst w1; [|by exists e1].
  destruct (Hk a (extend w e1)) as (e2 & Hw2 & Hs2 & Hn2).
  exists (e1 ++ e2)%list. rewrite Hw2, extend_extend, !filter_app, Hs1, Hs2, Hn1, Hn2.
  done.
Qed.

Lemma quiet_try_catch {A} (m : M A) (h : JsError -> M A) :
  quiet m -> (forall e, quiet (h e)) -> quiet (try_catch m h).
Proof.
  intros Hm Hh w. unfold try_catch. destruct (Hm w) as (e1 & Hw1 & Hs1 & Hn1).
  destruct (m w) as [[a|err] w1]; simpl in *; subst w1; [by exists e1|].
  destruct (Hh err (extend w e1)) as (e2 & Hw2 & Hs2 & Hn2).
  exists (e1 ++ e2)%list. rewrite Hw2, extend_extend, !filter_app, Hs1, Hs2, Hn1, Hn2.
  done.
Qed.

Lemma quiet_logger_error text d : quiet (logger_error text d).
Proof. intros w. by exists [EvLogError text d]. Qed.

Lemma quiet_axios_post post url req : quiet (axios_post post url req).
Proof. intros w. by exists [EvPost url req]. Qed.

Lemma quiet_request_post post rejection url req :
  quiet (RequestUser.request_post post rejection url req).
Proof. intros w. by exists [EvPost url req]. Qed.

Lemma quiet_evaluateInterviewAnswers_over ask doc :
  (forall q acc, quiet (ask doc q acc)) ->
  quiet (evaluateInterviewAnswers_over ask doc).
Proof.
  intros Hask. unfold evaluateInterviewAnswers_over.
  destruct (interviewQuestions doc) as [| |qs]; try apply quiet_throw.
  destruct (length qs =? 0)%nat; [apply quiet_throw|].
  generalize (@nil InterviewQuestion) as acc.
  induction qs as [|q rest IH]; intros acc; simpl; [apply quiet_ret|].
  apply quiet_bind; [|intros acc'; apply IH].
  unfold evaluate_question_over.
  destruct (negb (truthy (candidateAnswer q))); [apply quiet_ret|].
  apply quiet_try_catch; [apply Hask|intros e].
  apply quiet_bind; [apply quiet_logger_error|intros _; apply quiet_ret].
Qed.

Lemma quiet_evaluator_request_user post parse rejection doc :
  quiet (RequestUser.evaluateInterviewAnswers post parse rejection doc).
Proof.
  apply quiet_evaluateInterviewAnswers_over. intros q acc.
  unfold RequestUser.ask_model.
  apply quiet_bind; [apply quiet_request_post|intros response].
  apply quiet_bind; [apply quiet_lift|intros text].
  apply quiet_bind; [apply quiet_lift|intros v].
  apply quiet_bind; [apply quiet_lift|intros s].
  apply quiet_bind; [apply quiet_lift|intros e]. apply quiet_ret.
Qed.

Lemma quiet_evaluator_caller_archive post parse doc :
  quiet (CallerArchive.evaluateInterviewAnswers post parse doc).
Proof.
  apply quiet_evaluateInterviewAnswers_over. intros q acc.
  unfold CallerArchive.ask_model.
  apply quiet_bind; [apply quiet_axios_post|intros response].
  apply quiet_bind; [apply quiet_lift|intros text].
  apply quiet_bind; [apply quiet_lift|intros v].
  apply quiet_bind; [apply quiet_lift|intros s].
  apply quiet_bind; [apply quiet_lift|intros e]. apply quiet_ret.
Qed.

Lemma confined_of_quiet key {A} (m : M A) : quiet m -> confined key m.
Proof.
  intros Hm w. destruct (Hm w) as (evs & -> & Hs & _).
  by apply confined_step_extend.
Qed.

End Quiet.

(** *** The callable of the version keyed by the request *)

Lemma confined_request_user post parse send getf updf rejection request :
  confined ("users/" ++ RequestUser.userId (RequestUser.data request) ++ "/archives",
            RequestUser.docId (RequestUser.data request))
    (RequestUser.evaluateMockInterview post parse send getf updf rejection request).
Proof.
  unfold RequestUser.evaluateMockInterview.
  destruct (RequestUser.auth request) as [caller|]; [|apply confined_throw].
  apply confined_try_catch.
  - apply confined_bind; [apply confined_logger_info|intros _].
    apply confined_bind; [by apply confined_firestore_get|intros [stored|]].
    + apply confined_bind; [apply confined_logger_info|intros _].
      apply confined_bind; [by apply confined_firestore_update|intros _].
      apply confined_bind; [apply confined_logger_info|intros _].
      apply confined_bind;
        [apply confined_of_quiet, quiet_evaluator_request_user|intros out].
      apply confined_bind; [by apply confined_firestore_update|intros _].
      apply confined_bind; [apply confined_logger_info|intros _].
      apply confined_bind; [apply confined_sendEvaluationNotification|intros _].
      apply confined_ret.
    + apply confined_bind; [apply confined_logger_info|intros _].
      apply confined_throw.
  - intros e. apply confined_bind; [apply confined_logger_error|intros _].
    apply confined_throw.
Qed.

(** X13. In the version that reads [userId] from the request, the document
    is chosen by the request alone: two authenticated callers sending the
    same [{docId, userId}] get the same run, and every store request of the
    run, and every change to the store, is for document [docId] of
    [users/<userId>/archives], whoever the caller is. *)
Theorem request_chooses_the_archive
    (post : nat -> string -> ChatRequest -> HttpOutcome)
    (parse : jsval -> option jsval)
    (send : Notification -> bool)
    (getf : string -> string -> bool)
    (updf : string -> string -> UpdateData -> bool)
    (rejection : HttpOutcome -> JsError)
    (caller1 caller2 : AuthData) (d : RequestUser.FunctionData) (w : World) :
  RequestUser.evaluateMockInterview post parse send getf updf rejection
    {| RequestUser.auth := Some caller1; RequestUser.data := d |} w =
  RequestUser.evaluateMockInterview post parse send getf updf rejection
    {| RequestUser.auth := Some caller2; RequestUser.data := d |} w /\
  confined_step
    ("users/" ++ RequestUser.userId d ++ "/archives", RequestUser.docId d) w
    (snd (RequestUser.evaluateMockInterview post parse send getf updf rejection
            {| RequestUser.auth := Some caller1; RequestUser.data := d |} w)).
Proof.
  split; [reflexivity|].
  apply (confined_request_user post parse send getf updf rejection
           {| RequestUser.auth := Some caller1; RequestUser.data := d |}).
Qed.

(** *** The callable of the version keyed by the caller *)

Lemma confined_caller_archive post parse send updf data caller :
  confined ("users/" ++ uid caller ++ "/archives", CallerArchive.docId data)
    (CallerArchive.evaluateMockInterview post parse send updf data
       {| CallerArchive.auth := Some caller |}).
Proof.
  unfold CallerArchive.evaluateMockInterview. simpl.
  apply confined_try_catch.
  - apply confined_bind; [apply confined_logger_info|intros _].
    apply confined_bind; [by apply confined_firestore_update|intros _].
    apply confined_bind;
      [apply confined_of_quiet, quiet_evaluator_caller_archive|intros out].
    apply confined_bind; [by apply confined_firestore_update|intros _].
    apply confined_bind; [apply confined_sendEvaluationNotification|intros _].
    apply confined_ret.
  - intros e. apply confined_bind; [apply confined_logger_error|intros _].
    apply confined_throw.
Qed.

(** X14. In the version that takes [userId] from [context.auth.uid], an
    invocation only touches the caller's own archive: every store request
    it issues, and every change to the store, is for document [docId] of
    [users/<uid of the caller>/archives]. *)
Theorem caller_touches_own_archive_only
    (post : nat -> string -> ChatRequest -> HttpOutcome)
    (parse : jsval -> option jsval)
    (send : Notification -> bool)
    (updf : string -> string -> UpdateData -> bool)
    (data : CallerArchive.FunctionData) (caller : AuthData) (w : World) :
  confined_step ("users/" ++ uid caller ++ "/archives", CallerArchive.docId data) w
    (snd (CallerArchive.evaluateMockInterview post parse send updf data
            {| CallerArchive.auth := Some caller |} w)).
Proof. apply confined_caller_archive. Qed.

(** X15. The same version never reads the store, so a document that does
    not exist is found out by the first update: the update fails, the
    caller gets [internal], the store is unchanged, and the model is never
    called. *)
Theorem caller_archive_missing_document
    (post : nat -> string -> ChatRequest -> HttpOutcome)
    (parse : jsval -> option jsval)
    (send : Notification -> bool)
    (updf : string -> string -> UpdateData -> bool)
    (data : CallerArchive.FunctionData) (caller : AuthData) (w : World) :
  store w !! ("users/" ++ uid caller ++ "/archives", CallerArchive.docId data) = None ->
  CallerArchive.evaluateMockInterview post parse send updf data
    {| CallerArchive.auth := Some caller |} w =
    (Throw (HttpsError internal "Error evaluating interview"),
     extend w
       [EvLogInfo "Starting evaluation process" (LogDocId (CallerArchive.docId data));
        EvUpdate ("users/" ++ uid caller ++ "/archives") (CallerArchive.docId data)
          {| upd_interviewQuestions := None;
             upd_analysed := Some false;
             upd_evaluationInProgress := Some true |};
        EvLogError "Error evaluating interview" (LogError FirestoreError)]).
Proof.
  intros Hnone. unfold CallerArchive.evaluateMockInterview. simpl.
  unfold try_catch, bind, logger_info, logger_error, firestore_update, throw, ret.
  simpl. rewrite Hnone.
  destruct (updf _ _ started); simpl;
    unfold extend, emit, push; simpl; by rewrite <- !app_assoc.
Qed.

Lemma caller_archive_missing_document_witness :
  CallerArchive.evaluateMockInterview Samples.post_good Samples.parse MoreSamples.delivers
    MoreSamples.accepts_update VariantSamples.data_hash VariantSamples.as_bob
    VariantSamples.w_alice =
    (Throw (HttpsError internal "Error evaluating interview"),
     extend VariantSamples.w_alice
       [EvLogInfo "Starting evaluation process" (LogDocId "doc1");
        EvUpdate "users/bob/archives" "doc1"
          {| upd_interviewQuestions := None;
             upd_analysed := Some false;
             upd_evaluationInProgress := Some true |};
        EvLogError "Error evaluating interview" (LogError FirestoreError)]).
Proof.
  apply (caller_archive_missing_document Samples.post_good Samples.parse
           MoreSamples.delivers MoreSamples.accepts_update
           VariantSamples.data_hash {| uid := "bob" |} VariantSamples.w_alice).
  vm_compute. reflexivity.
Defined.

Lemma quiet_world {A} (m : M A) w r w' :
  quiet m -> m w = (r, w') ->
  exists evs, w' = extend w evs /\ filter is_store_op evs = [] /\ filter is_send evs = [].
Proof. intros Hm Hrun. destruct (Hm w) as (evs & Hw & H). rewrite Hrun in Hw. by exists evs. Qed.

(** X16. When an invocation of that version succeeds, the stored list is
    the evaluation of the interview sent with the request, not of what was
    stored: the document keeps its other fields, gets that list with
    [analysed] true and [evaluationInProgress] false, and the store has
    seen exactly the two updates and no read. The evaluator ran after the
    first update, on the document marked as in progress. *)
Theorem caller_archive_stores_sent_interview
    (post : nat -> string -> ChatRequest -> HttpOutcome)
    (parse : jsval -> option jsval)
    (send : Notification -> bool)
    (updf : string -> string -> UpdateData -> bool)
    (data : CallerArchive.FunctionData) (caller : AuthData)
    (w : World) (r : CallResult) (w' : World) :
  CallerArchive.evaluateMockInterview post parse send updf data
    {| CallerArchive.auth := Some caller |} w = (Ok r, w') ->
  let archive := "users/" ++ uid caller ++ "/archives" in
  let d := CallerArchive.docId data in
  exists stored out w2 evs,
    store w !! (archive, d) = Some stored /\
    CallerArchive.evaluateInterviewAnswers post parse (CallerArchive.interviewData data)
      {| store :=
           <[(archive, d) :=
               {| fields :=
                    {| title := title (fields stored);
                       questionsCount := questionsCount (fields stored);
                       domain := domain (fields stored);
                       topics := topics (fields stored);
                       doc_difficulty := doc_difficulty (fields stored);
                       jobDescription := jobDescription (fields stored);
                       resume := resume (fields stored);
                       date := date (fields stored);
                       preciseTime := preciseTime (fields stored);
                       analysed := false;
                       evaludationId := evaludationId (fields stored);
                       interviewQuestions := interviewQuestions (fields stored);
                       type := type (fields stored) |};
                  evaluationInProgress := Val true |}]> (store w);
         trace :=
           (trace w ++
            [EvLogInfo "Starting evaluation process" (LogDocId d);
             EvUpdate archive d
               {| upd_interviewQuestions := None;
                  upd_analysed := Some false;
                  upd_evaluationInProgress := Some true |}])%list |}
      = (Ok out, w2) /\
    store w' =
      <[(archive, d) :=
          {| fields :=
               {| title := title (fields stored);
                  questionsCount := questionsCount (fields stored);
                  domain := domain (fields stored);
                  topics := topics (fields stored);
                  doc_difficulty := doc_difficulty (fields stored);
                  jobDescription := jobDescription (fields stored);
                  resume := resume (fields stored);
                  date := date (fields stored);
                  preciseTime := preciseTime (fields stored);
                  analysed := true;
                  evaludationId := evaludationId (fields stored);
                  interviewQuestions := Val out;
                  type := type (fields stored) |};
             evaluationInProgress := Val false |}]> (store w) /\
    trace w' = (trace w ++ evs)%list /\
    filter is_store_op evs =
      [EvUpdate archive d
         {| upd_interviewQuestions := None;
            upd_analysed := Some false;
            upd_evaluationInProgress := Some true |};
       EvUpdate archive d
         {| upd_interviewQuestions := Some out;
            upd_analysed := Some true;
            upd_evaluationInProgress := Some false |}].
Proof.
  intros Hrun archive d. unfold CallerArchive.evaluateMockInterview in Hrun.
  simpl in Hrun.
  unfold try_catch, bind, logger_info, logger_error, firestore_update, throw, ret in Hrun.
  simpl in Hrun. fold archive d in Hrun.
  destruct (updf archive d started); simpl in Hrun; [done|].
  destruct (store w !! (archive, d)) as [stored|] eqn:Hstored; simpl in Hrun; [|done].
  unfold emit, push in Hrun. simpl in Hrun. rewrite <- app_assoc in Hrun. simpl in Hrun.
  destruct (CallerArchive.evaluateInterviewAnswers _ _ _ _) as [[out|err] w2] eqn:Hev;
    simpl in Hrun; [|done].
  destruct (quiet_world _ _ _ _ (quiet_evaluator_caller_archive post parse _) Hev)
    as (during & Hw2 & Hduring & _).
  rewrite Hw2 in Hrun. simpl in Hrun. rewrite lookup_insert_eq in Hrun.
  destruct (updf archive d (finished out)); simpl in Hrun; [done|].
  rewrite sendEvaluationNotification_run in Hrun. simpl in Hrun.
  injection Hrun as <- <-.
  eexists stored, out, w2, _. split; [done|]. split; [exact Hev|]. simpl.
  split; [by rewrite insert_insert_eq|].
  split; [rewrite <- !app_assoc; simpl; reflexivity|].
  rewrite !filter_cons, filter_app, Hduring, filter_cons. simpl.
  unfold notification_events. by destruct (send _).
Qed.

Lemma caller_archive_stores_sent_interview_witness :
  let run :=
    CallerArchive.evaluateMockInterview Samples.post_good Samples.parse
      MoreSamples.delivers MoreSamples.accepts_update
      VariantSamples.data_hash VariantSamples.as_alice VariantSamples.w_alice in
  let archive := "users/" ++ "alice" ++ "/archives" in
  let d := "doc1" in
  exists stored out w2 evs,
    store VariantSamples.w_alice !! (archive, d) = Some stored /\
    CallerArchive.evaluateInterviewAnswers Samples.post_good Samples.parse
      (Samples.doc_of (Val [Samples.q_hash]))
      {| store :=
           <[(archive, d) :=
               {| fields :=
                    {| title := title (fields stored);
                       questionsCount := questionsCount (fields stored);
                       domain := domain (fields stored);
                       topics := topics (fields stored);
                       doc_difficulty := doc_difficulty (fields stored);
                       jobDescription := jobDescription (fields stored);
                       resume := resume (fields stored);
                       date := date (fields stored);
                       preciseTime := preciseTime (fields stored);
                       analysed := false;
                       evaludationId := evaludationId (fields stored);
                       interviewQuestions := interviewQuestions (fields stored);
                       type := type (fields stored) |};
                  evaluationInProgress := Val true |}]> (store VariantSamples.w_alice);
         trace :=
           (trace VariantSamples.w_alice ++
            [EvLogInfo "Starting evaluation process" (LogDocId d);
             EvUpdate archive d
               {| upd_interviewQuestions := None;
                  upd_analysed := Some false;
                  upd_evaluationInProgress := Some true |}])%list |}
      = (Ok out, w2) /\
    store (snd run) =
      <[(archive, d) :=
          {| fields :=
               {| title := title (fields stored);
                  questionsCount := questionsCount (fields stored);
                  domain := domain (fields stored);
                  topics := topics (fields stored);
                  doc_difficulty := doc_difficulty (fields stored);
                  jobDescription := jobDescription (fields stored);
                  resume := resume (fields stored);
                  date := date (fields stored);
                  preciseTime := preciseTime (fields stored);
                  analysed := true;
                  evaludationId := evaludationId (fields stored);
                  interviewQuestions := Val out;
                  type := type (fields stored) |};
             evaluationInProgress := Val false |}]> (store VariantSamples.w_alice) /\
    trace (snd run) = (trace VariantSamples.w_alice ++ evs)%list /\
    filter is_store_op evs =
      [EvUpdate archive d
         {| upd_interviewQuestions := None;
            upd_analysed := Some false;
            upd_evaluationInProgress := Some true |};
       EvUpdate archive d
         {| upd_interviewQuestions := Some out;
            upd_analysed := Some true;
            upd_evaluationInProgress := Some false |}].
Proof.
  intros run.
  apply (caller_archive_stores_sent_interview Samples.post_good Samples.parse
           MoreSamples.delivers MoreSamples.accepts_update
           VariantSamples.data_hash {| uid := "alice" |} VariantSamples.w_alice
           {| success := true; result_docId := "doc1" |} (snd run)).
  vm_compute. reflexivity.
Defined.
